(** * Session and workspace-permission engine of the custody API

    A shallow embedding of the authentication controller (sign-in,
    sign-out, switch workspace), the workspace controller (permissions,
    members) and the two request middlewares, followed by the properties
    of the specification that concern them.

    Storage is a record of three tables threaded through every handler;
    a handler is a computation that may throw, and what it wrote before
    throwing stays written. *)

From stdpp Require Import base strings gmap list pretty.
From Stdlib Require Import ZArith Ascii String.

Set Warnings "-register-all".

Open Scope string_scope.
Open Scope Z_scope.
Open Scope list_scope.

(** ** JSON values and [JSON.stringify] *)

Module JSON.

(** A parsed request body.  An object keeps its properties, each under a
    key of its own, in insertion order, which is the order
    [JSON.stringify] emits them in.  Numbers are the integers (no fraction,
    no exponent form). *)
Inductive json :=
| JNull
| JBool (b : bool)
| JNum (n : Z)
| JStr (s : string)
| JArr (items : list json)
| JObj (fields : list (string * json)).

Abbreviation JSObject := (list (string * json)).

Definition dquote : string := String (ascii_of_nat 34) EmptyString.
Definition backslash : string := String (ascii_of_nat 92) EmptyString.

Definition hexdigit (n : nat) : ascii :=
  if (n <? 10)%nat then ascii_of_nat (48 + n) else ascii_of_nat (87 + n).

(** One code unit of a quoted JSON string. *)
Definition quoteChar (c : ascii) : string :=
  let n := nat_of_ascii c in
  if (n =? 34)%nat then backslash +:+ dquote
  else if (n =? 92)%nat then backslash +:+ backslash
  else if (n =? 8)%nat then backslash +:+ "b"
  else if (n =? 12)%nat then backslash +:+ "f"
  else if (n =? 10)%nat then backslash +:+ "n"
  else if (n =? 13)%nat then backslash +:+ "r"
  else if (n =? 9)%nat then backslash +:+ "t"
  else if (n <? 32)%nat then
    backslash +:+ "u00"
      +:+ String (hexdigit (n / 16)) (String (hexdigit (n mod 16)) EmptyString)
  else String c EmptyString.

Fixpoint quoteBody (s : string) : string :=
  match s with
  | EmptyString => EmptyString
  | String c rest => quoteChar c +:+ quoteBody rest
  end.

Definition quote (s : string) : string := dquote +:+ quoteBody s +:+ dquote.

Fixpoint join (sep : string) (parts : list string) : string :=
  match parts with
  | [] => EmptyString
  | [p] => p
  | p :: rest => p +:+ sep +:+ join sep rest
  end.

(** [JSON.stringify] without indentation. *)
Fixpoint stringify (j : json) : string :=
  match j with
  | JNull => "null"
  | JBool true => "true"
  | JBool false => "false"
  | JNum n => pretty n
  | JStr s => quote s
  | JArr items => "[" +:+ join "," (map stringify items) +:+ "]"
  | JObj fields =>
      "{" +:+ join "," (map (fun kv => match kv with
                                      | (k, v) => quote k +:+ ":" +:+ stringify v
                                      end) fields) +:+ "}"
  end.

(** Property read: [o[k]], [None] for [undefined]. *)
Fixpoint get (k : string) (o : JSObject) : option json :=
  match o with
  | [] => None
  | (k', v) :: rest => if decide (k' = k) then Some v else get k rest
  end.

(** The rest of an object pattern [{ k1, k2, ...rest }]: the own
    properties not named in the pattern, in their original order. *)
Definition omit (ks : list string) (o : JSObject) : JSObject :=
  filter (fun kv => kv.1 ∉ ks) o.

Definition getString (k : string) (o : JSObject) : option string :=
  match get k o with
  | Some (JStr s) => Some s
  | _ => None
  end.

Definition getNumber (k : string) (o : JSObject) : option Z :=
  match get k o with
  | Some (JNum n) => Some n
  | _ => None
  end.

End JSON.

Import JSON.

(** ** Numbers and dates *)

(** [Number(s)] on the strings this embedding represents: optional blanks,
    an optional sign and decimal digits, of magnitude at most 2^53 so that
    the double is the integer itself.  The empty string is 0.  [None]
    stands for [NaN] and for every other numeric form (fraction, exponent,
    radix prefix, Infinity). *)
Definition isBlank (c : ascii) : bool :=
  let n := nat_of_ascii c in
  ((n =? 32) || (n =? 9) || (n =? 10) || (n =? 11) || (n =? 12) || (n =? 13))%nat.

Fixpoint dropBlanks (s : string) : string :=
  match s with
  | String c rest => if isBlank c then dropBlanks rest else s
  | EmptyString => EmptyString
  end.

Fixpoint dropBlanksEnd (s : string) : string :=
  match s with
  | String c rest =>
      match dropBlanksEnd rest with
      | EmptyString => if isBlank c then EmptyString else String c EmptyString
      | rest' => String c rest'
      end
  | EmptyString => EmptyString
  end.

Definition digitValue (c : ascii) : option Z :=
  let n := nat_of_ascii c in
  if ((48 <=? n) && (n <=? 57))%nat then Some (Z.of_nat n - 48) else None.

Fixpoint digitsFrom (acc : Z) (s : string) : option Z :=
  match s with
  | EmptyString => Some acc
  | String c rest =>
      match digitValue c with
      | Some d => digitsFrom (10 * acc + d) rest
      | None => None
      end
  end.

Definition digits (s : string) : option Z :=
  match s with
  | EmptyString => None
  | _ => digitsFrom 0 s
  end.

Definition exactDouble (n : Z) : option Z :=
  if decide (Z.abs n ≤ 2 ^ 53)%Z then Some n else None.

Definition Number (s : string) : option Z :=
  match dropBlanksEnd (dropBlanks s) with
  | EmptyString => Some 0
  | String c rest =>
      if decide (c = "-"%char) then n ← digits rest; exactDouble (- n)
      else if decide (c = "+"%char) then n ← digits rest; exactDouble n
      else n ← digits (String c rest); exactDouble n
  end.

(** A [Date] holds a time value in milliseconds since the epoch, or is
    invalid; time values beyond 8.64e15 ms clip to an invalid date. *)
Inductive Date :=
| ValidDate (ms : Z)
| InvalidDate.

Definition maxTimeValue : Z := 8640000000000000.

Definition newDate (ms : Z) : Date :=
  if decide (- maxTimeValue ≤ ms ≤ maxTimeValue)%Z then ValidDate ms else InvalidDate.

Definition millisecondsInMinute : Z := 60000.

(** date-fns [addMinutes(date, amount)] for a numeric [date]. *)
Definition addMinutes (date : Z) (amount : option Z) : Date :=
  match newDate date, amount with
  | ValidDate t, Some n => newDate (t + n * millisecondsInMinute)
  | _, _ => InvalidDate
  end.

(** ** Errors and responses *)

Module ErrorTypes.
Inductive t := NotFound | Unauthorized | Internal.
End ErrorTypes.

Module UnauthorizedErrorTitles.
(** [MISSING_CREDENTIALS] and [MISSING_PERMISSION] are the titles the
    middlewares use; the other four name the failures of the signature
    verifier and of the token utilities. *)
Inductive t :=
| MISSING_CREDENTIALS
| MISSING_PERMISSION
| INVALID_SIGNATURE
| MALFORMED_SIGNATURE
| INVALID_CREDENTIAL
| EXPIRED_SESSION.
End UnauthorizedErrorTitles.

Inductive ErrorTitle :=
| UnauthorizedTitle (t : UnauthorizedErrorTitles.t)
| TextTitle (s : string).

(** The [{ type, title, detail }] object an error is built from. *)
Record ErrorPayload := {
  type : ErrorTypes.t;
  title : ErrorTitle;
  detail : string;
}.

(** The three error classes, all of them subclasses of [GeneralError]. *)
Inductive ErrorClass := NotFound | Unauthorized | Internal.

(** What a [catch (e)] can receive.  [TypeError] is the runtime's own
    exception for a property access on [undefined]; it carries neither
    [error] nor [statusCode].  [ValidationError] is the route's schema
    validator refusing a body before the controller is entered. *)
Inductive Exn :=
| GeneralError (class : ErrorClass) (payload : ErrorPayload)
| TypeError
| ValidationError.

Definition instanceof_GeneralError (e : Exn) : bool :=
  match e with
  | GeneralError _ _ => true
  | _ => false
  end.

(** [e.error]. *)
Definition exn_error (e : Exn) : option ErrorPayload :=
  match e with
  | GeneralError _ p => Some p
  | _ => None
  end.

(** Modelled from the spec: the status code of each error class, which
    utils/error declares.  NotFound is a 404-class response, Unauthorized a
    401-class one, a wrapped storage failure a 500. *)
Definition classStatusCode (c : ErrorClass) : Z :=
  match c with
  | NotFound => 404
  | Unauthorized => 401
  | Internal => 500
  end.

(** [e.statusCode]. *)
Definition exn_statusCode (e : Exn) : option Z :=
  match e with
  | GeneralError c _ => Some (classStatusCode c)
  | _ => None
  end.

Module Responses.
Definition Ok : Z := 200.
Definition Created : Z := 201.
End Responses.

(** What a controller hands back: [successful(payload, status)] or
    [error(payload, status)], the latter with whatever [e.error] and
    [e.statusCode] were, [undefined] included. *)
Inductive Response (A : Type) :=
| successful (payload : A) (status : Z)
| error (payload : option ErrorPayload) (status : option Z).

Arguments successful {A} payload status.
Arguments error {A} payload status.

Definition isSuccessful {A} (r : Response A) : bool :=
  match r with
  | successful _ _ => true
  | error _ _ => false
  end.

(** ** Entities *)

(** Modelled from the spec: the roles of models/Workspace, "OWNER, ADMIN,
    MANAGER, VIEWER". *)
Inductive PermissionRoles := OWNER | ADMIN | MANAGER | VIEWER.

(** A permission set: for each role the capability strings held under it. *)
Definition IPermission : Type := list (PermissionRoles * list string).

Module User.
Record t := mk {
  id : string;
  address : string;
  avatar : string;
  provider : string;
}.
End User.

Module Workspace.
Record t := mk {
  id : string;
  name : string;
  avatar : string;
  single : bool;
  owner : User.t;
  members : list User.t;
  permissions : gmap string IPermission;
}.

Definition with_permissions (p : gmap string IPermission) (w : t) : t :=
  mk (id w) (name w) (avatar w) (single w) (owner w) (members w) p.

Definition with_members (m : list User.t) (w : t) : t :=
  mk (id w) (name w) (avatar w) (single w) (owner w) m (permissions w).
End Workspace.

Module UserToken.
(** A session row with its [user] and [workspace] relations loaded: the
    two objects as they were when the session was stored.  A later write to
    the workspace table does not reach them; [findLoggedWorkspace] goes by
    the identifier in [workspace] to the row as stored. *)
Record t := mk {
  id : nat;
  token : string;
  user : User.t;
  workspace : Workspace.t;
  expired_at : Date;
  payload : string;
  encoder : option string;
  provider : string;
}.

Definition with_workspace (w : Workspace.t) (t0 : t) : t :=
  mk (id t0) (token t0) (user t0) w (expired_at t0) (payload t0)
     (encoder t0) (provider t0).

Definition with_expired_at (d : Date) (t0 : t) : t :=
  mk (id t0) (token t0) (user t0) (workspace t0) d (payload t0)
     (encoder t0) (provider t0).
End UserToken.

(** The three tables, and the counter new rows take their identity from. *)
Record DB := mkDB {
  users : list User.t;
  workspaces : list Workspace.t;
  tokens : list UserToken.t;
  next_id : nat;
}.

Definition set_users (f : list User.t → list User.t) (db : DB) : DB :=
  mkDB (f (users db)) (workspaces db) (tokens db) (next_id db).

Definition set_workspaces (f : list Workspace.t → list Workspace.t) (db : DB) : DB :=
  mkDB (users db) (f (workspaces db)) (tokens db) (next_id db).

Definition set_tokens (f : list UserToken.t → list UserToken.t) (db : DB) : DB :=
  mkDB (users db) (workspaces db) (f (tokens db)) (next_id db).

Definition bump_id (db : DB) : DB :=
  mkDB (users db) (workspaces db) (tokens db) (S (next_id db)).

(** ** Computations over the store that may throw *)

Inductive Result (A : Type) :=
| Return (a : A)
| Throw (e : Exn).

Arguments Return {A} a.
Arguments Throw {A} e.

Definition M (A : Type) : Type := DB → Result A * DB.

Definition ret {A} (a : A) : M A := fun db => (Return a, db).

Definition throw {A} (e : Exn) : M A := fun db => (Throw e, db).

Definition bind {A B} (m : M A) (k : A → M B) : M B :=
  fun db =>
    match m db with
    | (Return a, db') => k a db'
    | (Throw e, db') => (Throw e, db')
    end.

(** [try { m } catch (e) { h e }]: the handler runs on the store as the
    body left it. *)
Definition try_catch {A} (m : M A) (h : Exn → M A) : M A :=
  fun db =>
    match m db with
    | (Return a, db') => (Return a, db')
    | (Throw e, db') => h e db'
    end.

Definition read {A} (f : DB → A) : M A := fun db => (Return (f db), db).

Definition write (f : DB → DB) : M unit := fun db => (Return tt, f db).

Notation "'let*' x := m 'in' k" := (bind m (fun x => k))
  (at level 10, x name, m at level 100, k at level 200).

Notation "m ;;; k" := (bind m (fun _ => k))
  (at level 100, k at level 200, right associativity).

(** ** What the deployment supplies

    Configuration, the signature verifier, the permission validator and
    the tables of models/Workspace: none of them is defined by the
    controllers, all of them are used there. *)
Record Env := {
  (** [process.env.TOKEN_EXPIRATION_TIME], [None] when unset. *)
  TOKEN_EXPIRATION_TIME : option string;
  (** [new Web3Utils({ signature, message, signerAddress }).verifySignature()]:
      [None] when it returns, [Some e] when it throws [e]. *)
  verifySignature : string → string → string → option Exn;
  (** [validatePermissionGeneral(workspace, user_id, permission)]. *)
  validatePermissionGeneral : Workspace.t → string → list PermissionRoles → bool;
  (** [defaultPermissions[role]]. *)
  defaultPermissions : PermissionRoles → IPermission;
  (** [defaultConfigurable['provider']]. *)
  defaultProvider : string;
  (** What [randomAvatar()] answers. *)
  randomAvatar : string;
  (** [Encoder[name]], [None] for a name the enum lacks. *)
  Encoder : string → option string;
  (** The identifier storage gives the n-th row it creates. *)
  uuid : nat → string;
}.

(** ** Services *)

Definition upsert {A} (same : A → A → bool) (x : A) (l : list A) : list A :=
  if existsb (same x) l then map (fun y => if same x y then x else y) l
  else l ++ [x].

Module WorkspaceService.
(** The filters the controllers build. *)
Inductive Filter :=
| FilterId (id : string)
| FilterOwnerSingle (owner : string).

Definition matches (f : Filter) (w : Workspace.t) : bool :=
  match f with
  | FilterId i => bool_decide (Workspace.id w = i)
  | FilterOwnerSingle o =>
      bool_decide (User.id (Workspace.owner w) = o) && Workspace.single w
  end.

(** Modelled from the spec: [new WorkspaceService().filter(f).list()] of
    workspace/services, "workspace query by id, by owner, by single flag":
    the rows that match, in table order. *)
Definition list (f : Filter) : M (list Workspace.t) :=
  read (fun db => List.filter (matches f) (workspaces db)).

Definition sameRow (a b : Workspace.t) : bool :=
  bool_decide (Workspace.id a = Workspace.id b).

(** Modelled from the spec: [workspace.save()], the persistence
    collaborator writing the row with this id. *)
Definition save (w : Workspace.t) : M Workspace.t :=
  write (set_workspaces (upsert sameRow w)) ;;; ret w.
End WorkspaceService.

Module UserService.
Definition notFound (id : string) : Exn :=
  GeneralError NotFound
    {| type := ErrorTypes.NotFound;
       title := TextTitle "User not found";
       detail := "User with id " +:+ id +:+ " not found" |}.

(** Modelled from the spec: [findOne(id)] of user/service, a lookup by id
    that fails with NotFound when the user is absent. *)
Definition findOne (id : string) : M User.t :=
  let* found := read (fun db => List.find (fun u => bool_decide (User.id u = id)) (users db)) in
  match found with
  | Some u => ret u
  | None => throw (notFound id)
  end.

(** Modelled from the spec: [findByAddress(address)], [undefined] when no
    user has the address. *)
Definition findByAddress (address : string) : M (option User.t) :=
  read (fun db => List.find (fun u => bool_decide (User.address u = address)) (users db)).

(** Modelled from the spec: [create(payload)], a new row under a new id. *)
Definition create (env : Env) (address provider avatar : string) : M User.t :=
  let* n := read next_id in
  let u := User.mk (uuid env n) address avatar provider in
  write (fun db => bump_id (set_users (fun l => l ++ [u]) db)) ;;;
  ret u.
End UserService.

Module AuthService.
Definition ownedBy (userId : string) (t : UserToken.t) : bool :=
  bool_decide (User.id (UserToken.user t) = userId).

(** Modelled from the spec: [findToken({ userId })] of auth/services,
    SessionStore.findByUser, "Session | absent". *)
Definition findToken (userId : string) : M (option UserToken.t) :=
  read (fun db => List.find (ownedBy userId) (tokens db)).

(** Modelled from the spec: [signOut(user)], "invalidates the user's live
    session; idempotent (no error if already absent)": the rows of that
    user leave the table. *)
Definition signOut (user : User.t) : M bool :=
  write (set_tokens (List.filter (fun t => negb (ownedBy (User.id user) t)))) ;;;
  ret true.

Record ICreateUserTokenPayload := {
  ct_token : string;
  ct_encoder : option string;
  ct_provider : string;
  ct_expired_at : Date;
  ct_payload : string;
  ct_user : User.t;
  ct_workspace : option Workspace.t;
}.

Definition missingWorkspace : Exn :=
  GeneralError Internal
    {| type := ErrorTypes.Internal;
       title := TextTitle "Error on token creation";
       detail := "workspace is required" |}.

(** Modelled from the spec: [signIn(payload)] of auth/services, the
    SessionStore.save of a new session.  A session has an active
    workspace; storing one without is a storage failure, wrapped as
    Internal.  Nothing is invalidated here: the controller did that. *)
Definition signIn (p : ICreateUserTokenPayload) : M UserToken.t :=
  match ct_workspace p with
  | None => throw missingWorkspace
  | Some w =>
      let* n := read next_id in
      let t := UserToken.mk n (ct_token p) (ct_user p) w (ct_expired_at p)
                 (ct_payload p) (ct_encoder p) (ct_provider p) in
      write (fun db => bump_id (set_tokens (fun l => l ++ [t]) db)) ;;;
      ret t
  end.

Definition sameRow (a b : UserToken.t) : bool :=
  bool_decide (UserToken.id a = UserToken.id b).

(** Modelled from the spec: [token.save()], SessionStore.save of an
    existing session. *)
Definition save (t : UserToken.t) : M UserToken.t :=
  write (set_tokens (upsert sameRow t)) ;;; ret t.
End AuthService.

Definition unauthorized (t : UnauthorizedErrorTitles.t) (detail : string) : Exn :=
  GeneralError Unauthorized
    {| type := ErrorTypes.Unauthorized; title := UnauthorizedTitle t; detail := detail |}.

Module TokenUtils.
Import UnauthorizedErrorTitles.

(** Modelled from the spec: [recoverToken(signature)] of utils,
    SessionLifecycle.recoverFromCredential, "retrieves the Session, fails
    with InvalidCredential if absent". *)
Definition recoverToken (signature : string) : M UserToken.t :=
  let* found := read (fun db =>
    List.find (fun t => bool_decide (UserToken.token t = signature)) (tokens db)) in
  match found with
  | Some t => ret t
  | None => throw (unauthorized INVALID_CREDENTIAL "Invalid credentials")
  end.

Definition expired (now : Z) (t : UserToken.t) : bool :=
  match UserToken.expired_at t with
  | ValidDate e => bool_decide (e < now)
  | InvalidDate => false
  end.

(** Modelled from the spec: [renewToken(token)], SessionLifecycle.renew,
    "extends expires_at by the configured window from the current time;
    fails with ExpiredSession if now > expires_at", the expiry looked at
    before the renewal. *)
Definition renewToken (env : Env) (now : Z) (t : UserToken.t) : M UserToken.t :=
  if expired now t then throw (unauthorized EXPIRED_SESSION "Session expired")
  else
    let window := Number (default "15" (TOKEN_EXPIRATION_TIME env)) in
    AuthService.save (UserToken.with_expired_at (addMinutes now window) t).

(** Modelled from the spec: [checkUserExists(signerAddress)], the user
    the claimed address belongs to, a 401-class rejection without one. *)
Definition checkUserExists (signerAddress : string) : M User.t :=
  let* found := UserService.findByAddress signerAddress in
  match found with
  | Some u => ret u
  | None => throw (unauthorized INVALID_CREDENTIAL "Invalid credentials")
  end.

Definition loggedWorkspaceNotFound : Exn :=
  GeneralError NotFound
    {| type := ErrorTypes.NotFound;
       title := TextTitle "Workspace not found";
       detail := "Workspace not found" |}.

(** Modelled from the spec: [findLoggedWorkspace(token)], the session's
    active workspace.  A session is related to its workspace ("Session *-1
    Workspace"), so what comes back is the stored row under the id the
    session is on, as the table has it now, and NotFound when no row has
    that id. *)
Definition findLoggedWorkspace (t : UserToken.t) : M Workspace.t :=
  let* found :=
    WorkspaceService.list
      (WorkspaceService.FilterId (Workspace.id (UserToken.workspace t))) in
  match head found with
  | Some w => ret w
  | None => throw loggedWorkspaceNotFound
  end.
End TokenUtils.

(** ** The middlewares *)

(** The request as the middlewares see it: the two credential headers and
    the context [authMiddleware] fills in. *)
Record IAuthRequest := {
  authorization : option string;
  signerAddress : option string;
  user : option User.t;
  userToken : option UserToken.t;
  workspace : option Workspace.t;
}.

(** [next()] or [next(e)]. *)
Inductive Next :=
| next
| next_error (e : Exn).

(** [!s] on an optional string header: absent and empty are both falsy. *)
Definition header (h : option string) : option string :=
  match h with
  | Some EmptyString => None
  | other => other
  end.

Definition missingPermission : Next :=
  next_error (unauthorized UnauthorizedErrorTitles.MISSING_PERMISSION
                "You do not have permission to access this resource").

Definition missingCredentials : Next :=
  next_error (unauthorized UnauthorizedErrorTitles.MISSING_CREDENTIALS
                "Some required credentials are missing").

(** [authMiddleware].  [requestAuth.user] and [requestAuth.userToken] are
    assigned once the token is recovered and renewed and the user found;
    [requestAuth.workspace] once the workspace is found, so a failure of
    that last step leaves the first two assigned. *)
Definition authMiddleware (env : Env) (now : Z) (req : IAuthRequest)
  : DB → (Next * IAuthRequest) * DB :=
  fun db =>
    match header (authorization req), header (signerAddress req) with
    | Some signature, Some address =>
        let resolve :=
          let* recovered := TokenUtils.recoverToken signature in
          let* token := TokenUtils.renewToken env now recovered in
          let* u := TokenUtils.checkUserExists address in
          ret (token, u) in
        match resolve db with
        | (Throw e, db') => ((next_error e, req), db')
        | (Return (token, u), db') =>
            match TokenUtils.findLoggedWorkspace token db' with
            | (Return w, db'') =>
                ((next, {| authorization := authorization req;
                           signerAddress := signerAddress req;
                           user := Some u;
                           userToken := Some token;
                           workspace := Some w |}), db'')
            | (Throw e, db'') =>
                ((next_error e, {| authorization := authorization req;
                                   signerAddress := signerAddress req;
                                   user := Some u;
                                   userToken := Some token;
                                   workspace := workspace req |}), db'')
            end
        end
    | _, _ => ((missingCredentials, req), db)
    end.

(** [authPermissionMiddleware(permission)(req, res, next)].  A workspace's
    permission entry is an object, so [!workspace.permissions[user.id]] is
    the absence of the key. *)
Definition authPermissionMiddleware (env : Env)
    (permission : option (list PermissionRoles)) (req : IAuthRequest) : Next :=
  match permission with
  | None | Some [] => next
  | Some required =>
      match user req, workspace req with
      | Some u, Some w =>
          match Workspace.permissions w !! User.id u with
          | None => missingPermission
          | Some _ =>
              if validatePermissionGeneral env w (User.id u) required then next
              else missingPermission
          end
      | _, _ => missingCredentials
      end
  end.

(** ** The authentication controller *)

Module AuthController.

(** The body of a sign-in request once the route has validated it. *)
Record ISignInBody := {
  address : string;
  user_id : string;
  encoder : string;
  provider : string;
  createdAt : Z;
  signature : string;
  workspace_id : option string;
}.

(** The typed reading of a body; [None] for a body the validator
    refuses.  [workspace_id] may be missing, the other fields may not. *)
Definition typedBody (body : JSObject) : option ISignInBody :=
  a ← getString "address" body;
  u ← getString "user_id" body;
  e ← getString "encoder" body;
  p ← getString "provider" body;
  c ← getNumber "createdAt" body;
  s ← getString "signature" body;
  w ← match get "workspace_id" body with
      | None => Some None
      | Some (JStr w) => Some (Some w)
      | Some _ => None
      end;
  Some {| address := a; user_id := u; encoder := e; provider := p;
          createdAt := c; signature := s; workspace_id := w |}.

(** [const { signature, workspace_id, ...payloadWithoutSignature } = req.body]. *)
Definition payloadWithoutSignature (body : JSObject) : JSObject :=
  omit ["signature"; "workspace_id"] body.

(** The [message] handed to the signature verifier. *)
Definition signedMessage (body : JSObject) : string :=
  stringify (JObj (payloadWithoutSignature body)).

(** [process.env.TOKEN_EXPIRATION_TIME ?? '15']. *)
Definition expiresIn (env : Env) : string :=
  default "15" (TOKEN_EXPIRATION_TIME env).

(** [workspace_id ? { id: workspace_id } : { owner: user_id, single: true }]:
    an empty string is falsy too. *)
Definition workspaceFilter (b : ISignInBody) : WorkspaceService.Filter :=
  match workspace_id b with
  | Some (String c rest) => WorkspaceService.FilterId (String c rest)
  | _ => WorkspaceService.FilterOwnerSingle (user_id b)
  end.

Definition verify (env : Env) (sig message signer : string) : M unit :=
  match verifySignature env sig message signer with
  | None => ret tt
  | Some e => throw e
  end.

Definition signIn (env : Env) (body : JSObject) : M (Response UserToken.t) :=
  match typedBody body with
  | None => throw ValidationError
  | Some b =>
      try_catch
        (verify env (signature b) (signedMessage body) (address b) ;;;
         let* existingToken := AuthService.findToken (user_id b) in
         match existingToken with
         | Some t => AuthService.signOut (UserToken.user t) ;;; ret tt
         | None => ret tt
         end ;;;
         let* response := WorkspaceService.list (workspaceFilter b) in
         let workspace := head response in
         let expired_at := addMinutes (createdAt b) (Number (expiresIn env)) in
         let* u := UserService.findOne (user_id b) in
         let* userToken :=
           AuthService.signIn
             {| AuthService.ct_token := signature b;
                AuthService.ct_encoder := Encoder env (encoder b);
                AuthService.ct_provider := provider b;
                AuthService.ct_expired_at := expired_at;
                AuthService.ct_payload := signedMessage body;
                AuthService.ct_user := u;
                AuthService.ct_workspace := workspace |} in
         ret (successful userToken Responses.Ok))
        (fun e =>
           if instanceof_GeneralError e then throw e
           else ret (error (exn_error e) (exn_statusCode e)))
  end.

(** [signOut]: [req.user] is the user [authMiddleware] attached.  In the
    handler [e.error[0]] is [undefined] on the payload object of a
    GeneralError and is itself a TypeError on anything else. *)
Definition signOut (user : User.t) : M (Response bool) :=
  try_catch
    (let* response := AuthService.signOut user in
     ret (successful response Responses.Ok))
    (fun e =>
       match exn_error e with
       | Some _ => ret (error None (exn_statusCode e))
       | None => throw TypeError
       end).

(** The summary [updateWorkspace] answers with. *)
Record WorkspaceSummary := {
  ws_id : string;
  ws_name : string;
  ws_avatar : string;
  ws_permissions : option IPermission;
  ws_single : bool;
}.

Record ChangeWorkspaceResult := {
  r_workspace : WorkspaceSummary;
  r_token : string;
  r_avatar : string;
  r_address : string;
}.

Definition workspaceNotFound : Exn :=
  GeneralError NotFound
    {| type := ErrorTypes.NotFound;
       title := TextTitle "Workspace not found";
       detail := "Workspace not found" |}.

Definition summary (response : UserToken.t) : ChangeWorkspaceResult :=
  let w := UserToken.workspace response in
  let u := UserToken.user response in
  {| r_workspace :=
       {| ws_id := Workspace.id w;
          ws_name := Workspace.name w;
          ws_avatar := Workspace.avatar w;
          ws_permissions := Workspace.permissions w !! User.id u;
          ws_single := Workspace.single w |};
     r_token := UserToken.token response;
     r_avatar := User.avatar u;
     r_address := User.address u |}.

(** [updateWorkspace]: [workspaceId] and [user] are the [workspace] and
    [user] fields of the body.  A [token] that is [undefined] makes both
    [token.workspace = workspace] and [token.save()] a TypeError. *)
Definition updateWorkspace (workspaceId user : string)
  : M (Response ChangeWorkspaceResult) :=
  try_catch
    (let* found := WorkspaceService.list (WorkspaceService.FilterId workspaceId) in
     match head found with
     | None => throw workspaceNotFound
     | Some workspace =>
         let isUserMember :=
           List.find (fun m => bool_decide (User.id m = user)) (Workspace.members workspace) in
         let hasPermission := bool_decide (is_Some (Workspace.permissions workspace !! user)) in
         let* token := AuthService.findToken user in
         let* token' :=
           if bool_decide (is_Some isUserMember) || hasPermission then
             match token with
             | Some t => ret (Some (UserToken.with_workspace workspace t))
             | None => throw TypeError
             end
           else ret token in
         match token' with
         | None => throw TypeError
         | Some t =>
             let* response := AuthService.save t in
             ret (successful (summary response) Responses.Ok)
         end
     end)
    (fun e => ret (error (exn_error e) (exn_statusCode e))).

End AuthController.

(** ** The workspace controller *)

Module WorkspaceController.

Definition ownerPermissions : Exn :=
  unauthorized UnauthorizedErrorTitles.MISSING_PERMISSION
    "Owner cannot change his own permissions".

Definition ownerRemoval : Exn :=
  unauthorized UnauthorizedErrorTitles.MISSING_PERMISSION
    "Owner cannot be removed from workspace".

Definition onError {A} (e : Exn) : M (Response A) :=
  ret (error (exn_error e) (exn_statusCode e)).

(** [updatePermissions]: [id] and [member] are route parameters,
    [permissions] is the body's.  [list()] answers an array, so the
    [!data] test never fires; on an empty one [data[0]] is [undefined] and
    [workspace.owner] a TypeError. *)
Definition updatePermissions (id member : string) (permissions : IPermission)
  : M (Response Workspace.t) :=
  try_catch
    (let* data := WorkspaceService.list (WorkspaceService.FilterId id) in
     match head data with
     | None => throw TypeError
     | Some workspace =>
         if bool_decide (User.id (Workspace.owner workspace) = member)
         then throw ownerPermissions
         else
           let* response :=
             WorkspaceService.save
               (Workspace.with_permissions
                  (<[member := permissions]> (Workspace.permissions workspace))
                  workspace) in
           ret (successful response Responses.Ok)
     end)
    onError.

(** The user [addMember] resolves [member] to: an id when it is at most 36
    characters long, otherwise an address, whose user is created when
    nobody has it. *)
Definition resolveMember (env : Env) (member : string) : M User.t :=
  if bool_decide (String.length member ≤ 36)%nat then UserService.findOne member
  else
    let* data := UserService.findByAddress member in
    match data with
    | Some u => ret u
    | None => UserService.create env member (defaultProvider env) (randomAvatar env)
    end.

Definition isMember (id : string) (w : Workspace.t) : bool :=
  bool_decide (is_Some (List.find (fun m => bool_decide (User.id m = id))
                                  (Workspace.members w))).

Definition addMember (env : Env) (id member : string) : M (Response Workspace.t) :=
  try_catch
    (let* data := WorkspaceService.list (WorkspaceService.FilterId id) in
     let* _member := resolveMember env member in
     match head data with
     | None => throw TypeError
     | Some workspace =>
         let workspace' :=
           if isMember (User.id _member) workspace then workspace
           else
             Workspace.with_permissions
               (<[User.id _member := defaultPermissions env VIEWER]>
                  (Workspace.permissions workspace))
               (Workspace.with_members (Workspace.members workspace ++ [_member])
                  workspace) in
         let* response := WorkspaceService.save workspace' in
         ret (successful response Responses.Ok)
     end)
    onError.

Definition removeMember (id member : string) : M (Response Workspace.t) :=
  try_catch
    (let* data := WorkspaceService.list (WorkspaceService.FilterId id) in
     match head data with
     | None => throw TypeError
     | Some workspace =>
         if bool_decide (User.id (Workspace.owner workspace) = member)
         then throw ownerRemoval
         else
           let workspace' :=
             Workspace.with_permissions
               (delete member (Workspace.permissions workspace))
               (Workspace.with_members
                  (List.filter (fun m => negb (bool_decide (User.id m = member)))
                               (Workspace.members workspace))
                  workspace) in
           let* response := WorkspaceService.save workspace' in
           ret (successful response Responses.Ok)
     end)
    onError.

End WorkspaceController.

(** ** The predicate controller and service *)

(** Sequencing for values that are computed rather than stored: the first
    throw is the one that comes out. *)
Definition andThen {A B} (r : Result A) (k : A → Result B) : Result B :=
  match r with
  | Return a => k a
  | Throw e => Throw e
  end.

Module PredicateController.

(** The two statuses [hasReservedCoins] asks for, and every other one. *)
Inductive TransactionStatus :=
| AWAIT_REQUIREMENTS
| PENDING_SENDER
| OtherStatus (name : string).

Record Asset := {
  amount : string;
}.

Record Transaction := {
  status : TransactionStatus;
  assets : list Asset;
}.

(** [transaction.status === AWAIT_REQUIREMENTS || transaction.status === PENDING_SENDER]. *)
Definition reserved (t : Transaction) : bool :=
  match status t with
  | AWAIT_REQUIREMENTS | PENDING_SENDER => true
  | OtherStatus _ => false
  end.

(** [transaction.assets.reduce((acc, asset) => acc.add(bn.parseUnits(asset.amount)),
    bn.parseUnits('0'))].  [parseUnits] is the library's: it answers a big
    number or throws. *)
Definition assetsTotal (parseUnits : string → Result Z) (l : list Asset) : Result Z :=
  foldl (fun acc a =>
           andThen acc (fun x =>
           andThen (parseUnits (amount a)) (fun v => Return (x + v))))
        (parseUnits "0") l.

(** The [then] callback: the reserved transactions, their totals added up
    from [bn.parseUnits('0')]. *)
Definition reservedTotal (parseUnits : string → Result Z) (data : list Transaction)
  : Result Z :=
  foldl (fun acc t =>
           andThen acc (fun x =>
           andThen (assetsTotal parseUnits (assets t)) (fun v => Return (x + v))))
        (parseUnits "0") (List.filter reserved data).

(** [hasReservedCoins]: [listed] is what the transaction service's
    [list()] settled with.  A rejection of [list()] and a throw inside the
    [then] callback both end in the [catch], which answers
    [bn.parseUnits('0')]. *)
Definition hasReservedCoins (parseUnits : string → Result Z)
    (listed : Result (list Transaction)) : Response Z :=
  let response :=
    match andThen listed (reservedTotal parseUnits) with
    | Return v => Return v
    | Throw _ => parseUnits "0"
    end in
  match response with
  | Return v => successful v Responses.Ok
  | Throw e => error (exn_error e) (exn_statusCode e)
  end.

(** The query of [list], as the route hands it over. *)
Record ListQuery := {
  lq_provider : option string;
  lq_address : option string;
  lq_owner : option string;
  lq_q : option string;
}.

End PredicateController.

Module PredicateService.

(** The filter [list] reads: the fields the controller sets. *)
Record IPredicateFilterParams := {
  address : option string;
  provider : option string;
  owner : option string;
  q : option string;
  workspace : option (list string);
  signer : option string;
}.

(** The expressions [list] hands to the query builder. *)
Inductive Expression :=
| PredicateAddressIs (predicateAddress : string)
| ProviderIs (provider : string)
| OwnerIs (owner : string)
| SignerAmongAddresses (address : string)
| NameOrDescriptionLike (pattern : string).

(** How a where expression joins the ones before it. *)
Inductive WhereType := simple | and.

Abbreviation Wheres := (list (WhereType * Expression)).

(** The query builder's [where]: it replaces whatever was set before. *)
Definition where_ (e : Expression) (ws : Wheres) : Wheres := [(simple, e)].

(** The query builder's [andWhere]: it adds to what was set before. *)
Definition andWhere (e : Expression) (ws : Wheres) : Wheres := ws ++ [(and, e)].

(** [field && queryBuilder...]: the call is made for a non-empty string. *)
Definition when_ (field : option string) (call : string → Wheres → Wheres)
    (ws : Wheres) : Wheres :=
  match field with
  | Some (String c rest) => call (String c rest) ws
  | _ => ws
  end.

(** The where expressions of the query [list] builds, in the order of its
    five guarded calls. *)
Definition listWheres (f : IPredicateFilterParams) : Wheres :=
  let ws := [] in
  let ws := when_ (address f) (fun v => where_ (PredicateAddressIs v)) ws in
  let ws := when_ (provider f) (fun v => where_ (ProviderIs v)) ws in
  let ws := when_ (owner f) (fun v => where_ (OwnerIs v)) ws in
  let ws := when_ (signer f) (fun v => where_ (SignerAmongAddresses v)) ws in
  when_ (q f) (fun v => andWhere (NameOrDescriptionLike ("%" +:+ v +:+ "%"))) ws.

End PredicateService.

(** The filter [PredicateController.list] builds.  [singleWorkspace] is the
    first workspace the service lists for the user with [single: true],
    [allWk] the ids of all it lists for the user; with no single workspace
    [singleWorkspace.id] is a TypeError. *)
Definition predicateListFilter (query : PredicateController.ListQuery)
    (u : User.t) (w : Workspace.t)
    (singleWorkspace : option Workspace.t) (allWk : list string)
  : Result PredicateService.IPredicateFilterParams :=
  match singleWorkspace with
  | None => Throw TypeError
  | Some sw =>
      let hasSingle := bool_decide (Workspace.id sw = Workspace.id w) in
      Return
        {| PredicateService.address := PredicateController.lq_address query;
           PredicateService.provider := PredicateController.lq_provider query;
           PredicateService.owner := PredicateController.lq_owner query;
           PredicateService.q := PredicateController.lq_q query;
           PredicateService.workspace :=
             Some (if hasSingle then allWk else [Workspace.id w]);
           PredicateService.signer :=
             if hasSingle then Some (User.address u) else None |}
  end.

(** ** Vocabulary of the properties *)

(** The workspace a request names, as the controllers look it up. *)
Definition targetOf (workspaceId : string) (db : DB) : option Workspace.t :=
  head (List.filter (WorkspaceService.matches (WorkspaceService.FilterId workspaceId))
                    (workspaces db)).

(** The session [findToken] finds for a user. *)
Definition sessionOf (user : string) (db : DB) : option UserToken.t :=
  List.find (AuthService.ownedBy user) (tokens db).

(** [isUserMember || hasPermission]. *)
Definition qualifies (user : string) (w : Workspace.t) : bool :=
  bool_decide (is_Some (List.find (fun m => bool_decide (User.id m = user))
                                  (Workspace.members w)))
  || bool_decide (is_Some (Workspace.permissions w !! user)).

(** The session a sign-in stores, from the typed body, the user and the
    workspace it resolved, and the identifier storage hands out. *)
Definition issued (env : Env) (body : JSObject) (b : AuthController.ISignInBody)
    (n : nat) (u : User.t) (w : Workspace.t) : UserToken.t :=
  UserToken.mk n (AuthController.signature b) u w
    (addMinutes (AuthController.createdAt b) (Number (AuthController.expiresIn env)))
    (AuthController.signedMessage body) (Encoder env (AuthController.encoder b))
    (AuthController.provider b).

(** The sessions sign-in leaves of the table it found: those of the other
    users. *)
Definition othersOf (userId : string) (l : list UserToken.t) : list UserToken.t :=
  List.filter (fun t => negb (AuthService.ownedBy userId t)) l.

(** The user a session belongs to. *)
Definition sessionUser (t : UserToken.t) : string := User.id (UserToken.user t).


(** One request served from its first statement to its answer, no other
    request running in between: any handler or middleware, on any input. *)
Inductive step (env : Env) : DB → DB → Prop :=
| step_signIn body db :
    step env db (AuthController.signIn env body db).2
| step_signOut u db :
    step env db (AuthController.signOut u db).2
| step_updateWorkspace workspaceId u db :
    step env db (AuthController.updateWorkspace workspaceId u db).2
| step_updatePermissions id member permissions db :
    step env db (WorkspaceController.updatePermissions id member permissions db).2
| step_addMember id member db :
    step env db (WorkspaceController.addMember env id member db).2
| step_removeMember id member db :
    step env db (WorkspaceController.removeMember id member db).2
| step_authMiddleware now req db :
    step env db (authMiddleware env now req db).2.


(** ** A small deployment to run the controllers on *)

Module Sample.

Definition viewerDefault : IPermission :=
  [(OWNER, [""]); (ADMIN, [""]); (MANAGER, [""]); (VIEWER, ["*"])].

Definition ownerDefault : IPermission :=
  [(OWNER, ["*"]); (ADMIN, [""]); (MANAGER, [""]); (VIEWER, [""])].

Definition custom : IPermission :=
  [(OWNER, [""]); (ADMIN, ["*"]); (MANAGER, [""]); (VIEWER, [""])].

(** A deployment whose verifier accepts every signature and whose
    validator accepts every request. *)
Definition env : Env :=
  {| TOKEN_EXPIRATION_TIME := None;
     verifySignature := fun _ _ _ => None;
     validatePermissionGeneral := fun _ _ _ => true;
     defaultPermissions := fun r =>
       match r with
       | OWNER => ownerDefault
       | VIEWER => viewerDefault
       | _ => custom
       end;
     defaultProvider := "https://provider.example/graphql";
     randomAvatar := "avatar-0.png";
     Encoder := fun s => Some s;
     uuid := fun n => "user-" +:+ pretty n |}.

(** The same deployment with a thirty-minute session. *)
Definition env30 : Env :=
  {| TOKEN_EXPIRATION_TIME := Some "30";
     verifySignature := verifySignature env;
     validatePermissionGeneral := validatePermissionGeneral env;
     defaultPermissions := defaultPermissions env;
     defaultProvider := defaultProvider env;
     randomAvatar := randomAvatar env;
     Encoder := Encoder env;
     uuid := uuid env |}.

Definition alice : User.t := User.mk "u1" "0xa11ce" "alice.png" "prov".
Definition bob : User.t := User.mk "u2" "0xb0b" "bob.png" "prov".
Definition carol : User.t := User.mk "u3" "0xca401" "carol.png" "prov".

(** Alice's personal workspace; its permissions map has no entry at all. *)
Definition w1 : Workspace.t :=
  Workspace.mk "w1" "Alice" "w1.png" true alice [alice] ∅.

(** A shared workspace of Alice's with Bob a member under a custom entry. *)
Definition w2 : Workspace.t :=
  Workspace.mk "w2" "Shared" "w2.png" false alice [alice; bob]
    (<["u1" := ownerDefault]> (<["u2" := custom]> ∅)).

(** Carol's personal workspace: Alice and Bob have no part in it. *)
Definition w3 : Workspace.t :=
  Workspace.mk "w3" "Carol" "w3.png" true carol [carol]
    (<["u3" := ownerDefault]> ∅).

Definition db0 : DB := mkDB [alice; bob; carol] [w1; w2; w3] [] 0.

(** A sign-in body of Alice's, with [workspace_id] last when given. *)
Definition signInBody (sig : string) (workspace : option string) : JSObject :=
  [("address", JStr "0xa11ce"); ("user_id", JStr "u1"); ("encoder", JStr "fuel");
   ("provider", JStr "prov"); ("createdAt", JNum 1000); ("signature", JStr sig)]
  ++ match workspace with
     | Some w => [("workspace_id", JStr w)]
     | None => []
     end.

(** The typed reading of [signInBody]. *)
Definition typedSignIn (sig : string) (workspace : option string)
  : AuthController.ISignInBody :=
  {| AuthController.address := "0xa11ce";
     AuthController.user_id := "u1";
     AuthController.encoder := "fuel";
     AuthController.provider := "prov";
     AuthController.createdAt := 1000;
     AuthController.signature := sig;
     AuthController.workspace_id := workspace |}.

(** Alice signs in to her personal workspace, then again, asking for the
    shared one. *)
Definition body1 : JSObject := signInBody "sig1" None.
Definition body2 : JSObject := signInBody "sig2" (Some "w2").

Definition session1 : UserToken.t :=
  issued env body1 (typedSignIn "sig1" None) 0 alice w1.
Definition session2 : UserToken.t :=
  issued env body2 (typedSignIn "sig2" (Some "w2")) 1 alice w2.

Definition db1 : DB := (AuthController.signIn env body1 db0).2.
Definition db2 : DB := (AuthController.signIn env body2 db1).2.

(** The shared workspace once Bob has been removed, and once he is back. *)
Definition w2_without_bob : Workspace.t :=
  Workspace.mk "w2" "Shared" "w2.png" false alice [alice]
    (delete "u2" (Workspace.permissions w2)).

Definition w2_with_bob_again : Workspace.t :=
  Workspace.mk "w2" "Shared" "w2.png" false alice [alice; bob]
    (<["u2" := viewerDefault]> (delete "u2" (Workspace.permissions w2))).

Definition context (u : option User.t) (w : option Workspace.t) : IAuthRequest :=
  {| authorization := Some "sig1"; signerAddress := Some "0xa11ce";
     user := u; userToken := None; workspace := w |}.

End Sample.

(** ** More vocabulary: the three writes to a workspace *)

Inductive WorkspaceOp :=
| UpdatePermissions (member : string) (permissions : IPermission)
| AddMember (member : string)
| RemoveMember (member : string).

Definition runOp (env : Env) (id : string) (op : WorkspaceOp) : M (Response Workspace.t) :=
  match op with
  | UpdatePermissions member permissions =>
      WorkspaceController.updatePermissions id member permissions
  | AddMember member => WorkspaceController.addMember env id member
  | RemoveMember member => WorkspaceController.removeMember id member
  end.

(** The owner is in the members list. *)
Definition listsOwner (w : Workspace.t) : bool :=
  WorkspaceController.isMember (User.id (Workspace.owner w)) w.

Definition memberIds (w : Workspace.t) : list string :=
  map User.id (Workspace.members w).

(** An amount as the catch-all of [hasReservedCoins] sees it: parsed or not. *)
Definition parsed (parseUnits : string → Result Z) (s : string) : option Z :=
  match parseUnits s with
  | Return v => Some v
  | Throw _ => None
  end.

(** The amounts of the reserved transactions, in listing order. *)
Definition reservedAmounts (data : list PredicateController.Transaction) : list string :=
  flat_map (fun t => map PredicateController.amount (PredicateController.assets t))
           (List.filter PredicateController.reserved data).

Definition sumZ (l : list Z) : Z := foldr Z.add 0 l.

(** The total of a list of amounts: there is one when every amount parses. *)
Fixpoint totalOf (parseUnits : string → Result Z) (l : list string) : option Z :=
  match l with
  | [] => Some 0
  | s :: rest =>
      match parsed parseUnits s, totalOf parseUnits rest with
      | Some v, Some total => Some (v + total)
      | _, _ => None
      end
  end.

(** A filter field that is given: present and not the empty string. *)
Definition given (field : option string) : option string :=
  match field with
  | Some (String c rest) => Some (String c rest)
  | _ => None
  end.

(** The one expression the four [where] calls of [list] leave: the last
    call made wins. *)
Definition lastWhere (f : PredicateService.IPredicateFilterParams)
  : PredicateService.Wheres :=
  match given (PredicateService.signer f), given (PredicateService.owner f),
        given (PredicateService.provider f), given (PredicateService.address f) with
  | Some s, _, _, _ =>
      [(PredicateService.simple, PredicateService.SignerAmongAddresses s)]
  | None, Some o, _, _ => [(PredicateService.simple, PredicateService.OwnerIs o)]
  | None, None, Some p, _ => [(PredicateService.simple, PredicateService.ProviderIs p)]
  | None, None, None, Some a =>
      [(PredicateService.simple, PredicateService.PredicateAddressIs a)]
  | None, None, None, None => []
  end.

(** The expression the search text adds. *)
Definition searchWhere (q : option string) : PredicateService.Wheres :=
  match given q with
  | Some v =>
      [(PredicateService.and,
        PredicateService.NameOrDescriptionLike ("%" +:+ v +:+ "%"))]
  | None => []
  end.

(** ** More of the sample deployment *)

Module Scenario.
Import Sample.

(** A workspace of Carol's whose members list leaves her out. *)
Definition w4 : Workspace.t :=
  Workspace.mk "w4" "Vault team" "w4.png" false carol [bob]
    (<["u3" := ownerDefault]> (<["u2" := custom]> ∅)).

Definition db4 : DB := mkDB [alice; bob; carol] [w1; w2; w3; w4] [] 0.

(** An address nobody has, longer than an id. *)
Definition strangerAddress : string :=
  "0x5f3a9c1e7b2d4f6a8c0e1b3d5f7a9c2e4b6d8f0a".

(** A deployment whose verifier refuses the signature "forged". *)
Definition envStrict : Env :=
  {| TOKEN_EXPIRATION_TIME := None;
     verifySignature := fun sig _ _ =>
       if bool_decide (sig = "forged")
       then Some (unauthorized UnauthorizedErrorTitles.INVALID_SIGNATURE
                    "Invalid signature")
       else None;
     validatePermissionGeneral := validatePermissionGeneral env;
     defaultPermissions := defaultPermissions env;
     defaultProvider := defaultProvider env;
     randomAvatar := randomAvatar env;
     Encoder := Encoder env;
     uuid := uuid env |}.

(** Amounts as whole numbers of units; anything else does not parse. *)
Definition parseUnits (s : string) : Result Z :=
  match digits s with
  | Some n => Return n
  | None => Throw TypeError
  end.

Definition tx (st : PredicateController.TransactionStatus) (amounts : list string)
  : PredicateController.Transaction :=
  {| PredicateController.status := st;
     PredicateController.assets :=
       map (fun a => {| PredicateController.amount := a |}) amounts |}.

Definition transactions : list PredicateController.Transaction :=
  [tx PredicateController.AWAIT_REQUIREMENTS ["100"; "20"];
   tx (PredicateController.OtherStatus "SUCCESS") ["7000"; "not a number"];
   tx PredicateController.PENDING_SENDER ["3"]].

Definition query : PredicateController.ListQuery :=
  {| PredicateController.lq_provider := Some "https://provider.example/graphql";
     PredicateController.lq_address := Some "0xfeed";
     PredicateController.lq_owner := None;
     PredicateController.lq_q := Some "vault" |}.

End Scenario.

(** ** Sign-in at its awaits *)

(** [signIn] up to its last await: the verification, the look for a token
    of the user and its sign-out, the workspace and the user; the answer is
    the payload the last call is made with. *)
Definition signInPrepare (env : Env) (body : JSObject) (b : AuthController.ISignInBody)
  : M AuthService.ICreateUserTokenPayload :=
  AuthController.verify env (AuthController.signature b)
    (AuthController.signedMessage body) (AuthController.address b) ;;;
  let* existingToken := AuthService.findToken (AuthController.user_id b) in
  match existingToken with
  | Some t => AuthService.signOut (UserToken.user t) ;;; ret tt
  | None => ret tt
  end ;;;
  let* response := WorkspaceService.list (AuthController.workspaceFilter b) in
  let* u := UserService.findOne (AuthController.user_id b) in
  ret {| AuthService.ct_token := AuthController.signature b;
         AuthService.ct_encoder := Encoder env (AuthController.encoder b);
         AuthService.ct_provider := AuthController.provider b;
         AuthService.ct_expired_at :=
           addMinutes (AuthController.createdAt b)
             (Number (AuthController.expiresIn env));
         AuthService.ct_payload := AuthController.signedMessage body;
         AuthService.ct_user := u;
         AuthService.ct_workspace := head response |}.

(** The last await of [signIn], [authService.signIn(...)], and the answer. *)
Definition signInIssue (p : AuthService.ICreateUserTokenPayload)
  : M (Response UserToken.t) :=
  let* userToken := AuthService.signIn p in
  ret (successful userToken Responses.Ok).

(** The [catch] of [signIn]. *)
Definition signInCatch (e : Exn) : M (Response UserToken.t) :=
  if instanceof_GeneralError e then throw e
  else ret (error (exn_error e) (exn_statusCode e)).

(** A part of a request run to its end: how it came out, a value or a
    throw, and the store as it left it. *)
Definition settle {A} (m : M A) : M (Result A) :=
  fun db => (Return (m db).1, (m db).2).

(** [signIn] from its last await on, given how the part before it came
    out: a throw of that part goes to the [catch] as well. *)
Definition signInFinish (prepared : Result AuthService.ICreateUserTokenPayload)
  : M (Response UserToken.t) :=
  try_catch
    (match prepared with
     | Return p => signInIssue p
     | Throw e => throw e
     end)
    signInCatch.


(** Bob signed in on the shared workspace, and a request of his. *)
Module Shared.
Import Sample.

Definition bobsBody : JSObject :=
  [("address", JStr "0xb0b"); ("user_id", JStr "u2"); ("encoder", JStr "fuel");
   ("provider", JStr "prov"); ("createdAt", JNum 1000); ("signature", JStr "sigB");
   ("workspace_id", JStr "w2")].

Definition bobsTypedBody : AuthController.ISignInBody :=
  {| AuthController.address := "0xb0b";
     AuthController.user_id := "u2";
     AuthController.encoder := "fuel";
     AuthController.provider := "prov";
     AuthController.createdAt := 1000;
     AuthController.signature := "sigB";
     AuthController.workspace_id := Some "w2" |}.

Definition bobsSession : UserToken.t := issued env bobsBody bobsTypedBody 0 bob w2.

Definition dbBob : DB := (AuthController.signIn env bobsBody db0).2.

Definition bobsRequest : IAuthRequest :=
  {| authorization := Some "sigB"; signerAddress := Some "0xb0b";
     user := None; userToken := None; workspace := None |}.

End Shared.

Module Replay.
Import Sample.





End Replay.

(** * Properties *)

(** ** The runtime's functions on sample inputs *)

Example stringify_sample :
  stringify (JObj [("a", JNum 1); ("b", JStr "x"); ("c", JArr [JBool true; JNull])])
  = "{" +:+ dquote +:+ "a" +:+ dquote +:+ ":1," +:+ dquote +:+ "b" +:+ dquote +:+ ":"
        +:+ dquote +:+ "x" +:+ dquote +:+ "," +:+ dquote +:+ "c" +:+ dquote +:+ ":[true,null]}".
Proof. reflexivity. Qed.

Example Number_15 : Number "15" = Some 15.
Proof. reflexivity. Qed.

Example Number_padded : Number " -7 " = Some (-7).
Proof. reflexivity. Qed.

Example Number_empty : Number "" = Some 0.
Proof. reflexivity. Qed.

Example Number_word : Number "15m" = None.
Proof. reflexivity. Qed.

Example addMinutes_sample : addMinutes 1000 (Some 15) = ValidDate 901000.
Proof. reflexivity. Qed.

(** ** The permission gate *)

Section Gate.
Context (env : Env).

Import UnauthorizedErrorTitles.

(** With something required and both user and workspace in the context,
    the gate looks at the permissions map under the user's id and at
    nothing else of the workspace. *)
Lemma gate_with_context required req u w :
  required ≠ [] → user req = Some u → workspace req = Some w →
  authPermissionMiddleware env (Some required) req =
    match Workspace.permissions w !! User.id u with
    | None => missingPermission
    | Some _ =>
        if validatePermissionGeneral env w (User.id u) required then next
        else missingPermission
    end.
Proof.
  intros Hreq Hu Hw. unfold authPermissionMiddleware.
  destruct required as [|p ps]; [done|]. by rewrite Hu, Hw.
Qed.

(** C1, as the gate has it: for a request of the workspace's owner with a
    non-empty requirement, the gate admits exactly when the permissions
    map has an entry under the owner's id and the validator accepts it;
    with no such entry the owner is rejected with MISSING_PERMISSION. *)
Theorem owner_admitted_through_the_map required req u w :
  required ≠ [] → user req = Some u → workspace req = Some w →
  User.id u = User.id (Workspace.owner w) →
  (authPermissionMiddleware env (Some required) req = next
     ↔ is_Some (Workspace.permissions w !! User.id (Workspace.owner w))
       ∧ validatePermissionGeneral env w (User.id (Workspace.owner w)) required = true)
  ∧ (Workspace.permissions w !! User.id (Workspace.owner w) = None
     → authPermissionMiddleware env (Some required) req = missingPermission).
Proof.
  intros Hreq Hu Hw Hown.
  rewrite (gate_with_context required req u w Hreq Hu Hw), Hown.
  destruct (Workspace.permissions w !! User.id (Workspace.owner w)) as [p|] eqn:Hp.
  - split; [|done].
    destruct (validatePermissionGeneral env w _ required) eqn:Hv.
    + split; [by eauto|done].
    + split; [done|]. intros [_ ?]. done.
  - split; [|done]. split; [done|]. intros [[? ?] _]. done.
Qed.

(** C9, as the gate has it: an endpoint that requires nothing, be it no
    list or an empty one, is let through whatever the context holds, user
    and workspace absent included; the MISSING_CREDENTIALS rejection for
    an absent user or an absent workspace is what a non-empty requirement
    gets. *)
Theorem nothing_required_nothing_checked req p ps a s u t w :
  authPermissionMiddleware env None req = next
  ∧ authPermissionMiddleware env (Some []) req = next
  ∧ authPermissionMiddleware env (Some (p :: ps))
      {| authorization := a; signerAddress := s; user := None;
         userToken := t; workspace := w |} = missingCredentials
  ∧ authPermissionMiddleware env (Some (p :: ps))
      {| authorization := a; signerAddress := s; user := u;
         userToken := t; workspace := None |} = missingCredentials.
Proof.
  split; [done|]. split; [done|]. split; [done|].
  unfold authPermissionMiddleware. simpl. by destruct u.
Qed.

End Gate.

(** ** Rows and their tables *)

Section Tables.
Context {A : Type} (same : A → A → bool).

Lemma upsert_present x l :
  existsb (same x) l = true →
  upsert same x l = map (fun y => if same x y then x else y) l.
Proof. intros H. unfold upsert. by rewrite H. Qed.

Lemma upsert_absent x l :
  existsb (same x) l = false → upsert same x l = l ++ [x].
Proof. intros H. unfold upsert. by rewrite H. Qed.
End Tables.

Lemma find_some_elem {A} (P : A → bool) l x :
  List.find P l = Some x → x ∈ l ∧ P x = true.
Proof.
  intros H. apply List.find_some in H as [Hin HP].
  split; [by apply list_elem_of_In|done].
Qed.

Lemma find_none_all {A} (P : A → bool) l :
  List.find P l = None → ∀ x, x ∈ l → P x = false.
Proof.
  intros H x Hx. apply list_elem_of_In in Hx.
  by apply (List.find_none P l H).
Qed.

Lemma token_sameRow_refl t : AuthService.sameRow t t = true.
Proof. unfold AuthService.sameRow. by rewrite bool_decide_eq_true. Qed.

Lemma token_row_present t l : t ∈ l → existsb (AuthService.sameRow t) l = true.
Proof.
  intros Hin. apply existsb_exists. exists t.
  split; [by apply list_elem_of_In|apply token_sameRow_refl].
Qed.

(** Writing back a row that is in the table, identifiers being distinct,
    changes nothing. *)
Lemma token_save_unchanged t l :
  NoDup (map UserToken.id l) → t ∈ l → upsert AuthService.sameRow t l = l.
Proof.
  intros Hnd Hin. rewrite upsert_present by by apply token_row_present.
  induction l as [|y l IH]; [done|]. simpl in *.
  apply NoDup_cons in Hnd as [Hy Hnd].
  apply elem_of_cons in Hin as [->|Hin].
  - rewrite token_sameRow_refl. f_equal.
    clear IH. induction l as [|z l IH]; [done|]. simpl in *.
    apply not_elem_of_cons in Hy as [Hyz Hy].
    apply NoDup_cons in Hnd as [_ Hnd].
    unfold AuthService.sameRow at 1. rewrite bool_decide_eq_false_2 by done.
    f_equal. by apply IH.
  - unfold AuthService.sameRow at 1.
    rewrite bool_decide_eq_false_2.
    + f_equal. by apply IH.
    + intros Heq. apply Hy. rewrite <- Heq.
      apply list_elem_of_fmap. by exists t.
Qed.

(** The first row a search finds is still the one it finds once that row
    has been written back. *)
Lemma find_after_save (P : UserToken.t → bool) t l :
  List.find P l = Some t →
  List.find P (upsert AuthService.sameRow t l) = Some t.
Proof.
  intros Hfind. destruct (find_some_elem _ _ _ Hfind) as [Hin HP].
  rewrite upsert_present by by apply token_row_present.
  clear Hin. induction l as [|y l IH]; [done|]. simpl in *.
  destruct (AuthService.sameRow t y) eqn:Hs.
  - by rewrite HP.
  - destruct (P y) eqn:HPy; [done|]. by apply IH.
Qed.

(** ** Switching the active workspace *)

Section SwitchWorkspace.
Import AuthController.

(** The handler, case by case. *)
Lemma updateWorkspace_run workspaceId user db :
  updateWorkspace workspaceId user db =
    match targetOf workspaceId db with
    | None => (Return (error (exn_error workspaceNotFound) (Some 404)), db)
    | Some w =>
        match sessionOf user db with
        | None => (Return (error None None), db)
        | Some t =>
            let t' := if qualifies user w then UserToken.with_workspace w t else t in
            (Return (successful (summary t') Responses.Ok),
             set_tokens (upsert AuthService.sameRow t') db)
        end
    end.
Proof.
  unfold updateWorkspace, targetOf, sessionOf, qualifies, try_catch, bind,
    WorkspaceService.list, AuthService.findToken, AuthService.save, read, write, ret.
  simpl.
  destruct (head _) as [w|]; [|done]. simpl.
  destruct (List.find (AuthService.ownedBy user) (tokens db)) as [t|]; simpl;
    by destruct (_ || _).
Qed.

Lemma outsider_does_not_qualify user w :
  List.find (fun m => bool_decide (User.id m = user)) (Workspace.members w) = None →
  Workspace.permissions w !! user = None →
  qualifies user w = false.
Proof.
  intros Hm Hp. unfold qualifies. rewrite Hm, Hp.
  rewrite !bool_decide_eq_false_2; [done| |]; by intros [? ?].
Qed.
End SwitchWorkspace.

Section SwitchWorkspaceClaims.
Import AuthController.

(** C4: when the caller is neither a member of the target workspace nor
    keyed in its permissions map, the handler raises nothing and answers
    with success for the session as it was: the session [findToken] finds
    afterwards is the one it found before, active workspace included, the
    other tables are untouched, and with distinct row identifiers the
    whole store is. *)
Theorem updateWorkspace_outsider_keeps_workspace workspaceId user db w t :
  targetOf workspaceId db = Some w →
  List.find (fun m => bool_decide (User.id m = user)) (Workspace.members w) = None →
  Workspace.permissions w !! user = None →
  sessionOf user db = Some t →
  ∃ db',
    updateWorkspace workspaceId user db
      = (Return (successful (summary t) Responses.Ok), db')
    ∧ sessionOf user db' = Some t
    ∧ r_workspace (summary t)
        = {| ws_id := Workspace.id (UserToken.workspace t);
             ws_name := Workspace.name (UserToken.workspace t);
             ws_avatar := Workspace.avatar (UserToken.workspace t);
             ws_permissions :=
               Workspace.permissions (UserToken.workspace t)
                 !! User.id (UserToken.user t);
             ws_single := Workspace.single (UserToken.workspace t) |}
    ∧ workspaces db' = workspaces db
    ∧ users db' = users db
    ∧ (NoDup (map UserToken.id (tokens db)) → db' = db).
Proof.
  intros Hw Hm Hp Ht.
  rewrite updateWorkspace_run, Hw, Ht, (outsider_does_not_qualify _ _ Hm Hp).
  eexists. split; [reflexivity|].
  split; [by apply find_after_save|].
  split; [done|]. split; [done|]. split; [done|].
  intros Hnd. unfold set_tokens.
  rewrite token_save_unchanged; [by destruct db|done|].
  by apply (find_some_elem _ _ _ Ht).
Qed.

(** C3, as the handler has it: a caller with a session who is neither a
    member of the target nor keyed in its permissions map is answered
    with success, for the workspace the session was on; the one rejection
    is NotFound, for a target that does not exist. *)
Theorem updateWorkspace_outsider_response workspaceId user db t :
  sessionOf user db = Some t →
  (∀ w, targetOf workspaceId db = Some w → qualifies user w = false) →
  (updateWorkspace workspaceId user db).1 =
    match targetOf workspaceId db with
    | Some _ => Return (successful (summary t) Responses.Ok)
    | None => Return (error (exn_error workspaceNotFound) (Some 404))
    end.
Proof.
  intros Ht Hout. rewrite updateWorkspace_run.
  destruct (targetOf workspaceId db) as [w|] eqn:Hw; [|done].
  by rewrite Ht, (Hout w eq_refl).
Qed.

(** C10: on a request whose target exists, a caller without a stored
    token meets the dereference of the absent lookup result, member or
    not, and the handler answers with an error that has neither payload
    nor status, the store untouched; a caller with a stored token is
    answered with success.  With a stored token the untyped answer never
    occurs, whatever the target. *)
Theorem updateWorkspace_needs_a_token workspaceId user db w :
  targetOf workspaceId db = Some w →
  match sessionOf user db with
  | None => updateWorkspace workspaceId user db = (Return (error None None), db)
  | Some t =>
      ∃ r db', updateWorkspace workspaceId user db
               = (Return (successful r Responses.Ok), db')
  end
  ∧ ∀ workspaceId' t, sessionOf user db = Some t →
      (updateWorkspace workspaceId' user db).1 ≠ Return (error None None).
Proof.
  intros Hw. split.
  - rewrite updateWorkspace_run, Hw.
    destruct (sessionOf user db) as [t|]; [by eauto|done].
  - intros workspaceId' t Ht. rewrite updateWorkspace_run, Ht.
    by destruct (targetOf workspaceId' db).
Qed.

End SwitchWorkspaceClaims.

(** ** Members and permissions *)

Lemma workspace_sameRow_iff a b :
  WorkspaceService.sameRow a b = true ↔ Workspace.id a = Workspace.id b.
Proof. unfold WorkspaceService.sameRow. apply bool_decide_eq_true. Qed.

(** A saved workspace is the one its id finds next. *)
Lemma targetOf_after_save id w w' db :
  targetOf id db = Some w → Workspace.id w' = id →
  targetOf id (set_workspaces (upsert WorkspaceService.sameRow w') db) = Some w'.
Proof.
  unfold targetOf. destruct db as [us ws ts n]. simpl. intros Hw Hid.
  assert (Hex : existsb (WorkspaceService.sameRow w') ws = true).
  { apply existsb_exists.
    destruct (List.filter _ ws) as [|x xs] eqn:Hf; [done|].
    simpl in Hw. injection Hw as ->.
    assert (Hin : In w (List.filter
              (WorkspaceService.matches (WorkspaceService.FilterId id)) ws))
      by (rewrite Hf; by left).
    apply List.filter_In in Hin as [Hin Hm].
    exists w. split; [done|]. apply workspace_sameRow_iff.
    simpl in Hm. apply bool_decide_eq_true in Hm. congruence. }
  rewrite upsert_present by done. clear Hex.
  induction ws as [|y ws IH]; [done|]. simpl in *.
  destruct (bool_decide (Workspace.id y = id)) eqn:Hy.
  - apply bool_decide_eq_true in Hy.
    assert (WorkspaceService.sameRow w' y = true) as ->
      by (apply workspace_sameRow_iff; congruence).
    simpl. by rewrite bool_decide_eq_true_2.
  - apply bool_decide_eq_false in Hy.
    assert (WorkspaceService.sameRow w' y = false) as ->.
    { apply not_true_is_false. rewrite workspace_sameRow_iff. congruence. }
    simpl. rewrite bool_decide_eq_false_2 by done. by apply IH.
Qed.

Section Membership.
Context (env : Env).
Import WorkspaceController.

Lemma updatePermissions_run id member permissions db :
  updatePermissions id member permissions db =
    match targetOf id db with
    | None => (Return (error None None), db)
    | Some w =>
        if bool_decide (User.id (Workspace.owner w) = member)
        then (Return (error (exn_error ownerPermissions) (Some 401)), db)
        else
          let w' := Workspace.with_permissions
                      (<[member := permissions]> (Workspace.permissions w)) w in
          (Return (successful w' Responses.Ok),
           set_workspaces (upsert WorkspaceService.sameRow w') db)
    end.
Proof.
  unfold updatePermissions, targetOf, try_catch, bind, WorkspaceService.list,
    WorkspaceService.save, read, write, ret.
  simpl. destruct (head _) as [w|]; [|done]. simpl.
  by destruct (bool_decide _).
Qed.

Lemma removeMember_run id member db :
  removeMember id member db =
    match targetOf id db with
    | None => (Return (error None None), db)
    | Some w =>
        if bool_decide (User.id (Workspace.owner w) = member)
        then (Return (error (exn_error ownerRemoval) (Some 401)), db)
        else
          let w' :=
            Workspace.with_permissions (delete member (Workspace.permissions w))
              (Workspace.with_members
                 (List.filter (fun m => negb (bool_decide (User.id m = member)))
                              (Workspace.members w)) w) in
          (Return (successful w' Responses.Ok),
           set_workspaces (upsert WorkspaceService.sameRow w') db)
    end.
Proof.
  unfold removeMember, targetOf, try_catch, bind, WorkspaceService.list,
    WorkspaceService.save, read, write, ret.
  simpl. destruct (head _) as [w|]; [|done]. simpl.
  by destruct (bool_decide _).
Qed.

(** C7: on a workspace whose owner is the target member, both the change
    of permissions and the removal answer with an Unauthorized error,
    status 401, and leave the store as it was, the workspace's members
    and permissions map with it. *)
Theorem owner_is_never_the_target id member permissions db w :
  targetOf id db = Some w →
  User.id (Workspace.owner w) = member →
  updatePermissions id member permissions db
    = (Return (error (Some {| type := ErrorTypes.Unauthorized;
                              title := UnauthorizedTitle
                                         UnauthorizedErrorTitles.MISSING_PERMISSION;
                              detail := "Owner cannot change his own permissions" |})
                     (Some 401)), db)
  ∧ removeMember id member db
    = (Return (error (Some {| type := ErrorTypes.Unauthorized;
                              title := UnauthorizedTitle
                                         UnauthorizedErrorTitles.MISSING_PERMISSION;
                              detail := "Owner cannot be removed from workspace" |})
                     (Some 401)), db)
  ∧ targetOf id (updatePermissions id member permissions db).2 = Some w
  ∧ targetOf id (removeMember id member db).2 = Some w.
Proof.
  intros Hw Hown.
  rewrite updatePermissions_run, removeMember_run, Hw.
  rewrite bool_decide_eq_true_2 by done. by simpl.
Qed.

End Membership.

Lemma targetOf_id id db w : targetOf id db = Some w → Workspace.id w = id.
Proof.
  unfold targetOf. intros H.
  destruct (List.filter _ (workspaces db)) as [|x xs] eqn:Hf; [done|].
  simpl in H. injection H as ->.
  assert (Hin : In w (List.filter
            (WorkspaceService.matches (WorkspaceService.FilterId id)) (workspaces db)))
    by (rewrite Hf; by left).
  apply List.filter_In in Hin as [_ Hm]. simpl in Hm.
  by apply bool_decide_eq_true in Hm.
Qed.

Lemma find_filter_out (member : string) (l : list User.t) :
  List.find (fun m => bool_decide (User.id m = member))
    (List.filter (fun m => negb (bool_decide (User.id m = member))) l) = None.
Proof.
  induction l as [|y l IH]; [done|]. simpl.
  destruct (bool_decide (User.id y = member)) eqn:Hy; simpl; [done|].
  by rewrite Hy.
Qed.

Lemma find_app_last (member : string) (l : list User.t) u :
  User.id u = member →
  is_Some (List.find (fun m => bool_decide (User.id m = member)) (l ++ [u])).
Proof.
  intros Hu. induction l as [|y l IH]; simpl.
  - rewrite bool_decide_eq_true_2 by done. by eexists.
  - destruct (bool_decide (User.id y = member)); [by eexists|done].
Qed.

Section ReAdding.
Context (env : Env).
Import WorkspaceController.

(** Resolving a member may create a user; it never writes a workspace. *)
Lemma resolveMember_workspaces member db r db' :
  resolveMember env member db = (r, db') → workspaces db' = workspaces db.
Proof.
  unfold resolveMember, UserService.findOne, UserService.findByAddress,
    UserService.create, bind, read, write, ret, throw.
  destruct (bool_decide _); simpl.
  - destruct (List.find _ (users db)); intros [= <- <-]; done.
  - destruct (List.find _ (users db)); intros [= <- <-]; done.
Qed.

Lemma addMember_run id member db :
  addMember env id member db =
    match resolveMember env member db with
    | (Throw e, db1) => (Return (error (exn_error e) (exn_statusCode e)), db1)
    | (Return u, db1) =>
        match targetOf id db with
        | None => (Return (error None None), db1)
        | Some w =>
            let w' :=
              if isMember (User.id u) w then w
              else
                Workspace.with_permissions
                  (<[User.id u := defaultPermissions env VIEWER]>
                     (Workspace.permissions w))
                  (Workspace.with_members (Workspace.members w ++ [u]) w) in
            (Return (successful w' Responses.Ok),
             set_workspaces (upsert WorkspaceService.sameRow w') db1)
        end
    end.
Proof.
  unfold addMember, targetOf, try_catch, bind, WorkspaceService.list,
    WorkspaceService.save, read, write, ret.
  simpl. destruct (resolveMember env member db) as [[u|e] db1]; [|done].
  by destruct (head _).
Qed.

(** C8: removing a member who is not the owner takes the member out of
    the members list and the member's key out of the permissions map;
    adding the same user again, by id or by address, puts the user back
    under the VIEWER default, whatever entry the user held before. *)
Theorem removed_member_returns_as_viewer
    id member member' db w u r1 db1 dbr r2 db2 :
  targetOf id db = Some w →
  User.id (Workspace.owner w) ≠ member →
  removeMember id member db = (r1, db1) →
  resolveMember env member' db1 = (Return u, dbr) →
  User.id u = member →
  addMember env id member' db1 = (r2, db2) →
  ∃ w1 w2,
    r1 = Return (successful w1 Responses.Ok)
    ∧ targetOf id db1 = Some w1
    ∧ Workspace.permissions w1 !! member = None
    ∧ isMember member w1 = false
    ∧ r2 = Return (successful w2 Responses.Ok)
    ∧ targetOf id db2 = Some w2
    ∧ Workspace.permissions w2 !! member = Some (defaultPermissions env VIEWER)
    ∧ isMember member w2 = true.
Proof.
  intros Hw Hown Hrem Hres Hu Hadd.
  pose proof (targetOf_id _ _ _ Hw) as Hid.
  rewrite removeMember_run, Hw in Hrem.
  rewrite bool_decide_eq_false_2 in Hrem by done.
  simpl in Hrem. injection Hrem as <- <-.
  set (w1 := Workspace.with_permissions _ _) in *.
  assert (Hw1 : targetOf id (set_workspaces (upsert WorkspaceService.sameRow w1) db)
                = Some w1) by (by apply (targetOf_after_save id w)).
  assert (Hm1 : isMember member w1 = false).
  { unfold isMember, w1. simpl. rewrite find_filter_out.
    apply bool_decide_eq_false_2. by intros [? ?]. }
  rewrite addMember_run, Hres, Hw1, Hu, Hm1 in Hadd.
  simpl in Hadd. injection Hadd as <- <-.
  exists w1. eexists.
  split; [done|]. split; [done|].
  split; [apply lookup_delete_eq|]. split; [done|].
  split; [reflexivity|]. split.
  - apply (targetOf_after_save id w1); [|done].
    unfold targetOf. rewrite (resolveMember_workspaces _ _ _ _ Hres). apply Hw1.
  - split; [apply lookup_insert_eq|].
    unfold isMember. simpl. apply bool_decide_eq_true_2.
    by apply find_app_last.
Qed.

End ReAdding.

(** ** Signing in *)

Lemma filter_not_found {A} (P : A → bool) l :
  List.find P l = None → List.filter (fun x => negb (P x)) l = l.
Proof.
  induction l as [|y l IH]; [done|]. simpl.
  destruct (P y); [done|]. simpl. intros H. f_equal. by apply IH.
Qed.

Lemma ownedBy_iff userId t :
  AuthService.ownedBy userId t = true ↔ User.id (UserToken.user t) = userId.
Proof. unfold AuthService.ownedBy. apply bool_decide_eq_true. Qed.

Section SignIn.
Context (env : Env).
Import AuthController.

(** The handler, case by case. *)
Lemma signIn_run body db :
  signIn env body db =
    match typedBody body with
    | None => (Throw ValidationError, db)
    | Some b =>
        match verifySignature env (signature b) (signedMessage body) (address b) with
        | Some e =>
            (if instanceof_GeneralError e then Throw e
             else Return (error (exn_error e) (exn_statusCode e)), db)
        | None =>
            let kept := othersOf (user_id b) (tokens db) in
            match List.find (fun u => bool_decide (User.id u = user_id b)) (users db) with
            | None =>
                (Throw (UserService.notFound (user_id b)),
                 mkDB (users db) (workspaces db) kept (next_id db))
            | Some u =>
                match head (List.filter (WorkspaceService.matches (workspaceFilter b))
                                        (workspaces db)) with
                | None =>
                    (Throw AuthService.missingWorkspace,
                     mkDB (users db) (workspaces db) kept (next_id db))
                | Some w =>
                    let t := issued env body b (next_id db) u w in
                    (Return (successful t Responses.Ok),
                     mkDB (users db) (workspaces db) (kept ++ [t]) (S (next_id db)))
                end
            end
        end
    end.
Proof.
  unfold signIn. destruct (typedBody body) as [b|]; [|done].
  unfold try_catch, bind, verify, othersOf.
  destruct (verifySignature env _ _ _) as [e|]; simpl.
  { unfold throw, ret. by destruct (instanceof_GeneralError e). }
  unfold AuthService.findToken, read. simpl.
  destruct (List.find (AuthService.ownedBy _) (tokens db)) as [t|] eqn:Hf.
  - destruct (find_some_elem _ _ _ Hf) as [_ Ho].
    apply ownedBy_iff in Ho. rewrite Ho.
    unfold ret, set_tokens, UserService.findOne, bind, read, throw. simpl.
    destruct (List.find _ (users db)) as [u|]; simpl; [|done].
    unfold AuthService.signIn. simpl.
    by destruct (head _).
  - rewrite (filter_not_found _ _ Hf).
    unfold ret, UserService.findOne, bind, read, throw. simpl.
    destruct db as [us ws ts n]. simpl.
    destruct (List.find _ us) as [u|]; simpl; [|done].
    unfold AuthService.signIn. simpl.
    by destruct (head _).
Qed.

(** What a successful sign-in did. *)
Lemma signIn_successful body b db t status db' :
  typedBody body = Some b →
  signIn env body db = (Return (successful t status), db') →
  verifySignature env (signature b) (signedMessage body) (address b) = None
  ∧ status = Responses.Ok
  ∧ ∃ u w,
      t = issued env body b (next_id db) u w
      ∧ User.id u = user_id b
      ∧ db' = mkDB (users db) (workspaces db)
                (othersOf (user_id b) (tokens db) ++ [t]) (S (next_id db)).
Proof.
  intros Hb. rewrite signIn_run, Hb.
  destruct (verifySignature env _ _ _) as [e|].
  { by destruct (instanceof_GeneralError e). }
  simpl. destruct (List.find _ (users db)) as [u|] eqn:Hu; [|done].
  destruct (head _) as [w|]; [|done].
  intros [= <- <- <-]. split; [done|]. split; [done|].
  exists u, w. split; [done|]. split; [|done].
  apply List.find_some in Hu as [_ Hu]. by apply bool_decide_eq_true in Hu.
Qed.

End SignIn.

Section SignInClaims.
Context (env : Env).
Import AuthController.

Lemma typedBody_createdAt body b :
  typedBody body = Some b → getNumber "createdAt" body = Some (createdAt b).
Proof.
  unfold typedBody. intros H.
  repeat match type of H with
         | (mbind _ ?o) = Some _ => destruct o eqn:?; simpl in H; [|done]
         | (_ ≫= _) = Some _ => simpl in H
         end.
  by injection H as <-.
Qed.

(** C5: the session a successful sign-in issues expires at [createdAt]
    plus the configured number of minutes, in milliseconds; the number is
    [TOKEN_EXPIRATION_TIME] read as a number, 15 when it is unset.  The
    date is the body's [createdAt]: no clock enters [signIn]. *)
Theorem signIn_expires_from_createdAt body b db t status db' n :
  typedBody body = Some b →
  signIn env body db = (Return (successful t status), db') →
  Number (expiresIn env) = Some n →
  - maxTimeValue ≤ createdAt b ≤ maxTimeValue →
  - maxTimeValue ≤ createdAt b + n * 60000 ≤ maxTimeValue →
  UserToken.expired_at t = ValidDate (createdAt b + n * 60000)
  ∧ getNumber "createdAt" body = Some (createdAt b)
  ∧ t ∈ tokens db'
  ∧ (TOKEN_EXPIRATION_TIME env = None → n = 15)
  ∧ (∀ s, TOKEN_EXPIRATION_TIME env = Some s → Number s = Some n).
Proof.
  intros Hb Hrun Hn Hc He.
  destruct (signIn_successful env _ _ _ _ _ _ Hb Hrun) as (_ & _ & u & w & -> & _ & ->).
  split.
  { simpl. rewrite Hn. unfold addMinutes, newDate.
    rewrite decide_True by done.
    unfold millisecondsInMinute. by rewrite decide_True. }
  split; [by apply typedBody_createdAt|].
  split; [simpl; apply elem_of_app; right; by apply list_elem_of_singleton|].
  unfold expiresIn in Hn. split.
  - intros Hnone. rewrite Hnone in Hn. simpl in Hn.
    change (Number "15") with (Some 15) in Hn. congruence.
  - intros s Hs. by rewrite Hs in Hn.
Qed.

Lemma payloadWithoutSignature_fields body k v :
  (k, v) ∈ payloadWithoutSignature body
  ↔ (k, v) ∈ body ∧ k ≠ "signature" ∧ k ≠ "workspace_id".
Proof.
  unfold payloadWithoutSignature, omit. rewrite list_elem_of_filter. simpl.
  rewrite !not_elem_of_cons. split.
  - intros [(? & ? & _) ?]. done.
  - intros (? & ? & ?). split; [|done]. split; [done|]. split; [done|].
    apply not_elem_of_nil.
Qed.

(** C6, as the handler has it: the message whose signature is verified is
    [JSON.stringify] of the body without its [signature] and without its
    [workspace_id], the remaining properties in the order the body has
    them.  Every property under another name is in it; [workspace_id]
    never is, and adding one to a body leaves the message as it was.  A
    sign-in succeeds only when the verifier accepted that message, and
    the session stores it as its payload. *)
Theorem signIn_verifies_payload_without_workspace body b db t status db' :
  typedBody body = Some b →
  signIn env body db = (Return (successful t status), db') →
  verifySignature env (signature b)
    (stringify (JObj (payloadWithoutSignature body))) (address b) = None
  ∧ UserToken.payload t = stringify (JObj (payloadWithoutSignature body))
  ∧ (∀ k v, (k, v) ∈ payloadWithoutSignature body
            ↔ (k, v) ∈ body ∧ k ≠ "signature" ∧ k ≠ "workspace_id")
  ∧ payloadWithoutSignature body `sublist_of` body
  ∧ (∀ v, signedMessage (body ++ [("workspace_id", v)]) = signedMessage body).
Proof.
  intros Hb Hrun.
  destruct (signIn_successful env _ _ _ _ _ _ Hb Hrun) as (Hv & _ & u & w & -> & _ & _).
  split; [done|]. split; [done|].
  split; [apply payloadWithoutSignature_fields|].
  split; [apply sublist_filter|].
  intros v. unfold signedMessage, payloadWithoutSignature, omit.
  rewrite filter_app. f_equal. f_equal.
  rewrite (filter_cons_False _ _ []); [by rewrite filter_nil, app_nil_r|].
  simpl. intros Hn. apply Hn. set_solver.
Qed.

End SignInClaims.

(** ** The session table stays well kept *)

Lemma NoDup_map_filter {A B} (f : A → B) (P : A → bool) l :
  NoDup (map f l) → NoDup (map f (List.filter P l)).
Proof.
  induction l as [|y l IH]; [done|]. simpl. intros Hnd.
  apply NoDup_cons in Hnd as [Hy Hnd].
  destruct (P y); [|by apply IH]. simpl.
  apply NoDup_cons. split; [|by apply IH].
  intros Hin. apply Hy.
  apply list_elem_of_fmap in Hin as (x & -> & Hx).
  apply list_elem_of_In, List.filter_In in Hx as [Hx _].
  apply list_elem_of_fmap. exists x. split; [done|]. by apply list_elem_of_In.
Qed.

Lemma elem_of_filter_bool {A} (P : A → bool) l x :
  x ∈ List.filter P l ↔ x ∈ l ∧ P x = true.
Proof. rewrite !list_elem_of_In. apply List.filter_In. Qed.



Lemma same_id_same_row (l : list UserToken.t) x y :
  NoDup (map UserToken.id l) → x ∈ l → y ∈ l →
  UserToken.id x = UserToken.id y → x = y.
Proof.
  induction l as [|z l IH]; [by intros _ ?%elem_of_nil|].
  simpl. intros Hnd Hx Hy Heq.
  apply NoDup_cons in Hnd as [Hz Hnd].
  apply elem_of_cons in Hx as [->|Hx]; apply elem_of_cons in Hy as [->|Hy].
  - done.
  - exfalso. apply Hz. rewrite Heq. apply list_elem_of_fmap. by exists y.
  - exfalso. apply Hz. rewrite <- Heq. apply list_elem_of_fmap. by exists x.
  - by apply IH.
Qed.





Section Invariant.
Context (env : Env).











End Invariant.

(** ** One session per user *)


Lemma othersOf_again userId l t :
  sessionUser t = userId →
  othersOf userId (othersOf userId l ++ [t]) = othersOf userId l.
Proof.
  intros Ht. unfold othersOf. rewrite List.filter_app. simpl.
  assert (AuthService.ownedBy userId t = true) as -> by (by apply ownedBy_iff).
  simpl. rewrite app_nil_r.
  induction l as [|y l IH]; [done|]. simpl.
  destruct (AuthService.ownedBy userId y) eqn:Hy; simpl; [done|].
  rewrite Hy. simpl. by f_equal.
Qed.



Section SingleSession.
Context (env : Env).
Import AuthController.

(** [signIn] on a body the route accepts is its part up to the last await
    followed at once by the rest. *)
Lemma signIn_at_its_awaits body b db :
  typedBody body = Some b →
  signIn env body db
  = (let* prepared := settle (signInPrepare env body b) in signInFinish prepared) db.
Proof.
  intros Hb. unfold signIn. rewrite Hb.
  unfold settle, signInFinish, signInPrepare, signInIssue, signInCatch, try_catch, bind.
  cbn [fst snd].
  destruct (verify env _ _ _ db) as [[?|?] d1]; [|done].
  destruct (AuthService.findToken _ d1) as [[[t|]|?] d2]; [| |done].
  - destruct (AuthService.signOut _ d2) as [[?|?] d3]; [|done].
    cbn [ret].
    destruct (WorkspaceService.list _ d3) as [[?|?] d4]; [|done].
    destruct (UserService.findOne _ d4) as [[?|?] d5]; [|done].
    cbn [ret]. done.
  - cbn [ret].
    destruct (WorkspaceService.list _ d2) as [[?|?] d4]; [|done].
    destruct (UserService.findOne _ d4) as [[?|?] d5]; [|done].
    cbn [ret]. done.
Qed.


End SingleSession.

(** * The properties on the sample deployment *)

Import Sample.

(** The owner of a workspace whose permissions map is empty asks for a
    resource that requires something: the gate rejects her with
    MISSING_PERMISSION, under the most lenient validator there is. *)
Lemma owner_without_entry_is_rejected :
  Workspace.owner w1 = alice
  ∧ Workspace.permissions w1 !! User.id alice = None
  ∧ authPermissionMiddleware env (Some [VIEWER]) (context (Some alice) (Some w1))
    = missingPermission
  ∧ authPermissionMiddleware env (Some [VIEWER]) (context (Some alice) (Some w1))
    ≠ next.
Proof. repeat split; (reflexivity || discriminate). Qed.

Lemma owner_admitted_through_the_map_witness :
  ([VIEWER] ≠ []
   ∧ user (context (Some alice) (Some w2)) = Some alice
   ∧ workspace (context (Some alice) (Some w2)) = Some w2
   ∧ User.id alice = User.id (Workspace.owner w2))
  ∧ (authPermissionMiddleware env (Some [VIEWER]) (context (Some alice) (Some w2)) = next
       ↔ is_Some (Workspace.permissions w2 !! User.id (Workspace.owner w2))
         ∧ validatePermissionGeneral env w2 (User.id (Workspace.owner w2)) [VIEWER] = true)
    ∧ (Workspace.permissions w2 !! User.id (Workspace.owner w2) = None
       → authPermissionMiddleware env (Some [VIEWER]) (context (Some alice) (Some w2))
         = missingPermission).
Proof.
  split.
  - repeat split; (reflexivity || discriminate).
  - apply (owner_admitted_through_the_map env [VIEWER]
             (context (Some alice) (Some w2)) alice w2);
      (reflexivity || discriminate).
Defined.

(** An endpoint with an empty requirement, a context with neither user nor
    workspace: the gate calls [next()]. *)
Lemma empty_requirement_admits_without_context :
  user (context None None) = None
  ∧ workspace (context None None) = None
  ∧ authPermissionMiddleware env (Some []) (context None None) = next
  ∧ authPermissionMiddleware env (Some []) (context None None) ≠ missingCredentials.
Proof. repeat split; (reflexivity || discriminate). Qed.

(** Alice, signed in on her own workspace, asks to switch to Carol's, in
    which she has no part: the answer is a success, for the workspace she
    was on. *)
Lemma outsider_switch_answers_success :
  targetOf "w3" db1 = Some w3
  ∧ qualifies "u1" w3 = false
  ∧ sessionOf "u1" db1 = Some session1
  ∧ (AuthController.updateWorkspace "w3" "u1" db1).1
    = Return (successful (AuthController.summary session1) Responses.Ok)
  ∧ AuthController.ws_id
      (AuthController.r_workspace (AuthController.summary session1)) = "w1".
Proof. repeat split; vm_compute; reflexivity. Qed.

Lemma updateWorkspace_outsider_response_witness :
  sessionOf "u1" db1 = Some session1
  ∧ (∀ w, targetOf "w3" db1 = Some w → qualifies "u1" w = false)
  ∧ (AuthController.updateWorkspace "w3" "u1" db1).1 =
      match targetOf "w3" db1 with
      | Some _ => Return (successful (AuthController.summary session1) Responses.Ok)
      | None => Return (error (exn_error AuthController.workspaceNotFound) (Some 404))
      end.
Proof.
  assert (Hs : sessionOf "u1" db1 = Some session1) by (vm_compute; reflexivity).
  assert (Hq : ∀ w, targetOf "w3" db1 = Some w → qualifies "u1" w = false).
  { intros w Hw. vm_compute in Hw. injection Hw as <-. vm_compute. reflexivity. }
  split; [exact Hs|]. split; [exact Hq|].
  exact (updateWorkspace_outsider_response "w3" "u1" db1 session1 Hs Hq).
Defined.

Lemma updateWorkspace_outsider_keeps_workspace_witness :
  (targetOf "w3" db1 = Some w3
   ∧ List.find (fun m => bool_decide (User.id m = "u1")) (Workspace.members w3) = None
   ∧ Workspace.permissions w3 !! "u1" = None
   ∧ sessionOf "u1" db1 = Some session1)
  ∧ ∃ db',
      AuthController.updateWorkspace "w3" "u1" db1
        = (Return (successful (AuthController.summary session1) Responses.Ok), db')
      ∧ sessionOf "u1" db' = Some session1
      ∧ workspaces db' = workspaces db1
      ∧ users db' = users db1
      ∧ (NoDup (map UserToken.id (tokens db1)) → db' = db1).
Proof.
  assert (H1 : targetOf "w3" db1 = Some w3) by (vm_compute; reflexivity).
  assert (H2 : List.find (fun m => bool_decide (User.id m = "u1"))
                 (Workspace.members w3) = None) by (vm_compute; reflexivity).
  assert (H3 : Workspace.permissions w3 !! "u1" = None) by (vm_compute; reflexivity).
  assert (H4 : sessionOf "u1" db1 = Some session1) by (vm_compute; reflexivity).
  split; [by repeat split|].
  destruct (updateWorkspace_outsider_keeps_workspace "w3" "u1" db1 w3 session1
              H1 H2 H3 H4) as (db' & E1 & E2 & _ & E3 & E4 & E5).
  exists db'. repeat split; assumption.
Defined.

(** Bob has no session; he is a member of the shared workspace and an
    outsider of Carol's. *)
Lemma updateWorkspace_needs_a_token_witness :
  targetOf "w2" db1 = Some w2
  ∧ sessionOf "u2" db1 = None
  ∧ sessionOf "u1" db1 = Some session1
  ∧ AuthController.updateWorkspace "w2" "u2" db1 = (Return (error None None), db1)
  ∧ (∃ r db', AuthController.updateWorkspace "w2" "u1" db1
              = (Return (successful r Responses.Ok), db'))
  ∧ (AuthController.updateWorkspace "nowhere" "u1" db1).1 ≠ Return (error None None).
Proof.
  assert (H1 : targetOf "w2" db1 = Some w2) by (vm_compute; reflexivity).
  assert (H2 : sessionOf "u2" db1 = None) by (vm_compute; reflexivity).
  assert (H3 : sessionOf "u1" db1 = Some session1) by (vm_compute; reflexivity).
  pose proof (updateWorkspace_needs_a_token "w2" "u2" db1 w2 H1) as [Ha _].
  pose proof (updateWorkspace_needs_a_token "w2" "u1" db1 w2 H1) as [Hb Hc].
  rewrite H2 in Ha. rewrite H3 in Hb.
  repeat split; try assumption.
  exact (Hc "nowhere" session1 H3).
Defined.

(** Alice signs in under a thirty-minute configuration with [createdAt]
    at 1000 ms: the session expires at 1000 + 30 * 60000. *)
Lemma signIn_expires_from_createdAt_witness :
  (AuthController.typedBody body1 = Some (typedSignIn "sig1" None)
   ∧ AuthController.signIn env30 body1 db0
     = (Return (successful (issued env30 body1 (typedSignIn "sig1" None) 0 alice w1)
                           Responses.Ok),
        (AuthController.signIn env30 body1 db0).2)
   ∧ Number (AuthController.expiresIn env30) = Some 30)
  ∧ UserToken.expired_at (issued env30 body1 (typedSignIn "sig1" None) 0 alice w1)
    = ValidDate 1801000
  ∧ issued env30 body1 (typedSignIn "sig1" None) 0 alice w1
    ∈ tokens (AuthController.signIn env30 body1 db0).2.
Proof.
  assert (H1 : AuthController.typedBody body1 = Some (typedSignIn "sig1" None))
    by (vm_compute; reflexivity).
  assert (H2 : AuthController.signIn env30 body1 db0
               = (Return (successful
                            (issued env30 body1 (typedSignIn "sig1" None) 0 alice w1)
                            Responses.Ok),
                  (AuthController.signIn env30 body1 db0).2))
    by (vm_compute; reflexivity).
  assert (H3 : Number (AuthController.expiresIn env30) = Some 30)
    by (vm_compute; reflexivity).
  assert (H4 : - maxTimeValue ≤ AuthController.createdAt (typedSignIn "sig1" None)
               ≤ maxTimeValue) by (unfold maxTimeValue; simpl; lia).
  assert (H5 : - maxTimeValue
               ≤ AuthController.createdAt (typedSignIn "sig1" None) + 30 * 60000
               ≤ maxTimeValue) by (unfold maxTimeValue; simpl; lia).
  split; [by repeat split|].
  destruct (signIn_expires_from_createdAt env30 body1 (typedSignIn "sig1" None) db0
              _ _ _ 30 H1 H2 H3 H4 H5) as (E1 & _ & E2 & _).
  split; [exact E1|exact E2].
Defined.

(** Two bodies of Alice's that differ in [workspace_id] alone: the field is
    in the body, under a name other than [signature], and not in the signed
    payload; both bodies have the same signed message. *)
Lemma workspace_id_is_not_signed :
  ("workspace_id", JStr "w2") ∈ signInBody "sig1" (Some "w2")
  ∧ (("workspace_id", JStr "w2")
       ∉ AuthController.payloadWithoutSignature (signInBody "sig1" (Some "w2")))
  ∧ AuthController.signedMessage (signInBody "sig1" (Some "w2"))
    = AuthController.signedMessage (signInBody "sig1" (Some "w3"))
  ∧ AuthController.signedMessage (signInBody "sig1" (Some "w2"))
    = stringify (JObj [("address", JStr "0xa11ce"); ("user_id", JStr "u1");
                       ("encoder", JStr "fuel"); ("provider", JStr "prov");
                       ("createdAt", JNum 1000)]).
Proof.
  split; [|split; [|split]].
  - unfold signInBody. simpl. set_solver.
  - rewrite payloadWithoutSignature_fields. by intros (_ & _ & ?).
  - vm_compute. reflexivity.
  - vm_compute. reflexivity.
Qed.

Lemma signIn_verifies_payload_without_workspace_witness :
  (AuthController.typedBody body2 = Some (typedSignIn "sig2" (Some "w2"))
   ∧ AuthController.signIn env body2 db1 = (Return (successful session2 Responses.Ok), db2))
  ∧ verifySignature env "sig2"
      (stringify (JObj (AuthController.payloadWithoutSignature body2))) "0xa11ce" = None
  ∧ UserToken.payload session2
    = stringify (JObj (AuthController.payloadWithoutSignature body2))
  ∧ (∀ v, AuthController.signedMessage (body2 ++ [("workspace_id", v)])
          = AuthController.signedMessage body2).
Proof.
  assert (H1 : AuthController.typedBody body2 = Some (typedSignIn "sig2" (Some "w2")))
    by (vm_compute; reflexivity).
  assert (H2 : AuthController.signIn env body2 db1
               = (Return (successful session2 Responses.Ok), db2))
    by (vm_compute; reflexivity).
  split; [by split|].
  destruct (signIn_verifies_payload_without_workspace env body2 _ db1 _ _ _ H1 H2)
    as (E1 & E2 & _ & _ & E3).
  split; [exact E1|]. split; [exact E2|exact E3].
Defined.

(** Alice owns the shared workspace: neither her permissions nor her
    membership can be touched. *)
Lemma owner_is_never_the_target_witness :
  (targetOf "w2" db0 = Some w2 ∧ User.id (Workspace.owner w2) = "u1")
  ∧ WorkspaceController.updatePermissions "w2" "u1" custom db0
    = (Return (error (exn_error WorkspaceController.ownerPermissions) (Some 401)), db0)
  ∧ WorkspaceController.removeMember "w2" "u1" db0
    = (Return (error (exn_error WorkspaceController.ownerRemoval) (Some 401)), db0)
  ∧ targetOf "w2" (WorkspaceController.removeMember "w2" "u1" db0).2 = Some w2.
Proof.
  assert (H1 : targetOf "w2" db0 = Some w2) by (vm_compute; reflexivity).
  assert (H2 : User.id (Workspace.owner w2) = "u1") by reflexivity.
  split; [by split|].
  destruct (owner_is_never_the_target "w2" "u1" custom db0 w2 H1 H2)
    as (E1 & E2 & _ & E3).
  split; [exact E1|]. split; [exact E2|exact E3].
Defined.

(** Bob, a member of the shared workspace under a custom entry, is removed
    and added again by id: he is back under the VIEWER default. *)
Lemma removed_member_returns_as_viewer_witness :
  (targetOf "w2" db0 = Some w2
   ∧ User.id (Workspace.owner w2) ≠ "u2"
   ∧ Workspace.permissions w2 !! "u2" = Some custom)
  ∧ ∃ db1' db2',
      WorkspaceController.removeMember "w2" "u2" db0
        = (Return (successful w2_without_bob Responses.Ok), db1')
      ∧ WorkspaceController.addMember env "w2" "u2" db1'
        = (Return (successful w2_with_bob_again Responses.Ok), db2')
      ∧ ∃ w1 w2',
          targetOf "w2" db1' = Some w1
          ∧ Workspace.permissions w1 !! "u2" = None
          ∧ WorkspaceController.isMember "u2" w1 = false
          ∧ targetOf "w2" db2' = Some w2'
          ∧ Workspace.permissions w2' !! "u2" = Some viewerDefault
          ∧ WorkspaceController.isMember "u2" w2' = true.
Proof.
  set (db1' := (WorkspaceController.removeMember "w2" "u2" db0).2).
  set (db2' := (WorkspaceController.addMember env "w2" "u2" db1').2).
  assert (H1 : targetOf "w2" db0 = Some w2) by (vm_compute; reflexivity).
  assert (H2 : User.id (Workspace.owner w2) ≠ "u2") by discriminate.
  assert (H3 : WorkspaceController.removeMember "w2" "u2" db0
               = (Return (successful w2_without_bob Responses.Ok), db1'))
    by (vm_compute; reflexivity).
  assert (H4 : WorkspaceController.resolveMember env "u2" db1' = (Return bob, db1'))
    by (vm_compute; reflexivity).
  assert (H5 : User.id bob = "u2") by reflexivity.
  assert (H6 : WorkspaceController.addMember env "w2" "u2" db1'
               = (Return (successful w2_with_bob_again Responses.Ok), db2'))
    by (vm_compute; reflexivity).
  split; [split; [exact H1|split; [exact H2|vm_compute; reflexivity]]|].
  exists db1', db2'. split; [exact H3|]. split; [exact H6|].
  destruct (removed_member_returns_as_viewer env "w2" "u2" "u2" db0 w2 bob
              _ db1' db1' _ db2' H1 H2 H3 H4 H5 H6)
    as (w1 & w2' & _ & E1 & E2 & E3 & _ & E4 & E5 & E6).
  exists w1, w2'. repeat split; assumption.
Defined.




(** * Further properties of the controllers *)

(** ** Writes to a workspace *)

Lemma workspace_row_present w l :
  (∃ y, y ∈ l ∧ Workspace.id y = Workspace.id w) →
  existsb (WorkspaceService.sameRow w) l = true.
Proof.
  intros (y & Hy & Hid). apply existsb_exists. exists y.
  split; [by apply list_elem_of_In|]. by apply workspace_sameRow_iff.
Qed.

Lemma targetOf_elem id db w : targetOf id db = Some w → w ∈ workspaces db.
Proof.
  unfold targetOf. intros H.
  destruct (List.filter _ (workspaces db)) as [|x xs] eqn:Hf; [done|].
  simpl in H. injection H as ->.
  assert (Hin : w ∈ List.filter
            (WorkspaceService.matches (WorkspaceService.FilterId id)) (workspaces db))
    by (rewrite Hf; by left).
  by apply elem_of_filter_bool in Hin as [? _].
Qed.

(** Saving a second row under the id of a first leaves what saving the
    second alone leaves. *)
Lemma workspace_save_save x y l :
  Workspace.id x = Workspace.id y →
  existsb (WorkspaceService.sameRow y) l = true →
  upsert WorkspaceService.sameRow x (upsert WorkspaceService.sameRow y l)
  = upsert WorkspaceService.sameRow x l.
Proof.
  intros Hid Hex.
  assert (Hex' : existsb (WorkspaceService.sameRow x) l = true).
  { apply existsb_exists in Hex as (z & Hz & Hs). apply existsb_exists.
    exists z. split; [done|]. apply workspace_sameRow_iff.
    apply workspace_sameRow_iff in Hs. congruence. }
  rewrite (upsert_present _ y l Hex), (upsert_present _ x l Hex').
  rewrite upsert_present.
  - rewrite map_map. apply map_ext. intros z.
    destruct (WorkspaceService.sameRow y z) eqn:Hyz.
    + assert (WorkspaceService.sameRow x y = true) as ->
        by (by apply workspace_sameRow_iff).
      assert (WorkspaceService.sameRow x z = true) as ->; [|done].
      apply workspace_sameRow_iff. apply workspace_sameRow_iff in Hyz. congruence.
    + done.
  - apply existsb_exists in Hex as (z & Hz & Hs). apply existsb_exists.
    exists y. split.
    + apply in_map_iff. exists z. by rewrite Hs.
    + by apply workspace_sameRow_iff.
Qed.

Lemma targetOf_present id db w :
  targetOf id db = Some w → ∀ x, Workspace.id x = id →
  existsb (WorkspaceService.sameRow x) (workspaces db) = true.
Proof.
  intros Hw x Hx. apply workspace_row_present. exists w.
  split; [by apply (targetOf_elem id)|].
  rewrite (targetOf_id _ _ _ Hw). done.
Qed.

Section WorkspaceWrites.
Context (env : Env).
Import WorkspaceController.

(** X1: on an existing workspace, two permission updates for different
    members, neither the owner, leave the same store in either order, and a
    second update for one member leaves what it alone would have left. *)
Theorem updatePermissions_commute_and_overwrite id m1 p1 m2 p2 db w :
  targetOf id db = Some w →
  User.id (Workspace.owner w) ≠ m1 →
  User.id (Workspace.owner w) ≠ m2 →
  (m1 ≠ m2 →
   (updatePermissions id m2 p2 (updatePermissions id m1 p1 db).2).2
   = (updatePermissions id m1 p1 (updatePermissions id m2 p2 db).2).2)
  ∧ (updatePermissions id m1 p2 (updatePermissions id m1 p1 db).2).2
    = (updatePermissions id m1 p2 db).2.
Proof.
  intros Hw H1 H2.
  pose proof (targetOf_id _ _ _ Hw) as Hid.
  assert (Hstep : ∀ m p, User.id (Workspace.owner w) ≠ m →
    ∀ m' p', User.id (Workspace.owner w) ≠ m' →
    (updatePermissions id m' p' (updatePermissions id m p db).2).2
    = set_workspaces (upsert WorkspaceService.sameRow
        (Workspace.with_permissions
           (<[m' := p']> (<[m := p]> (Workspace.permissions w))) w)) db).
  { intros m p Hm m' p' Hm'.
    rewrite (updatePermissions_run id m p db), Hw.
    rewrite bool_decide_eq_false_2 by done. simpl.
    rewrite updatePermissions_run.
    rewrite (targetOf_after_save id w _ db Hw) by done. simpl.
    rewrite bool_decide_eq_false_2 by done. simpl.
    unfold set_workspaces. simpl. f_equal.
    apply workspace_save_save; [done|].
    by apply (targetOf_present id db w). }
  split.
  - intros Hne. rewrite !Hstep by done. by rewrite insert_insert_ne.
  - rewrite Hstep by done. rewrite insert_insert_eq.
    rewrite updatePermissions_run, Hw.
    by rewrite bool_decide_eq_false_2.
Qed.

(** X2: on an id no workspace has, the change of permissions and the
    removal answer with an error that has neither payload nor status, and
    write nothing: the NotFound behind [!data] is never thrown. *)
Theorem unknown_workspace_is_an_untyped_error id member permissions db :
  targetOf id db = None →
  updatePermissions id member permissions db = (Return (error None None), db)
  ∧ removeMember id member db = (Return (error None None), db).
Proof.
  intros Hw. by rewrite updatePermissions_run, removeMember_run, Hw.
Qed.

(** X3: adding, to an id no workspace has, a member named by an address
    longer than 36 characters that no user has: the user is created all the
    same, under the default provider and the random avatar, and the answer
    is then the error without payload or status. *)
Theorem addMember_creates_the_user_before_it_fails id member db :
  targetOf id db = None →
  (36 < String.length member)%nat →
  List.find (fun u => bool_decide (User.address u = member)) (users db) = None →
  addMember env id member db
  = (Return (error None None),
     mkDB (users db ++ [User.mk (uuid env (next_id db)) member
                          (randomAvatar env) (defaultProvider env)])
          (workspaces db) (tokens db) (S (next_id db))).
Proof.
  intros Hw Hlen Hfind. rewrite addMember_run, Hw.
  unfold resolveMember.
  rewrite bool_decide_eq_false_2 by lia.
  unfold UserService.findByAddress, UserService.create, bind, read, write, ret.
  simpl. by rewrite Hfind.
Qed.

(** X4: adding a user who is in the members list already answers with the
    workspace as it was: the list is not extended and the entry the user
    holds is not replaced by the VIEWER default. *)
Theorem addMember_keeps_a_member id member db w u db1 :
  targetOf id db = Some w →
  resolveMember env member db = (Return u, db1) →
  isMember (User.id u) w = true →
  (addMember env id member db).1 = Return (successful w Responses.Ok)
  ∧ targetOf id (addMember env id member db).2 = Some w.
Proof.
  intros Hw Hres Hm. rewrite addMember_run, Hres, Hw, Hm. simpl.
  split; [done|].
  apply (targetOf_after_save id w); [|by apply (targetOf_id _ db)].
  unfold targetOf. by rewrite (resolveMember_workspaces env _ _ _ _ Hres).
Qed.

End WorkspaceWrites.

Lemma isMember_iff id w :
  WorkspaceController.isMember id w = true ↔ id ∈ memberIds w.
Proof.
  unfold WorkspaceController.isMember, memberIds.
  rewrite bool_decide_eq_true. split.
  - intros [m Hm]. apply find_some_elem in Hm as [Hin Hid].
    apply bool_decide_eq_true in Hid. apply list_elem_of_fmap. by exists m.
  - intros (m & -> & Hin)%list_elem_of_fmap.
    destruct (List.find _ (Workspace.members w)) as [x|] eqn:Hf; [by eexists|].
    pose proof (find_none_all _ _ Hf m Hin) as Hn.
    by apply bool_decide_eq_false in Hn.
Qed.

Section WorkspaceInvariants.
Context (env : Env).
Import WorkspaceController.

(** The workspace an operation leaves under the id it worked on. *)
Lemma runOp_target id op db w :
  targetOf id db = Some w →
  targetOf id (runOp env id op db).2 =
    Some (match op with
          | UpdatePermissions member permissions =>
              if bool_decide (User.id (Workspace.owner w) = member) then w
              else Workspace.with_permissions
                     (<[member := permissions]> (Workspace.permissions w)) w
          | AddMember member =>
              match (resolveMember env member db).1 with
              | Return u =>
                  if isMember (User.id u) w then w
                  else Workspace.with_permissions
                         (<[User.id u := defaultPermissions env VIEWER]>
                            (Workspace.permissions w))
                         (Workspace.with_members (Workspace.members w ++ [u]) w)
              | Throw _ => w
              end
          | RemoveMember member =>
              if bool_decide (User.id (Workspace.owner w) = member) then w
              else Workspace.with_permissions
                     (delete member (Workspace.permissions w))
                     (Workspace.with_members
                        (List.filter (fun m => negb (bool_decide (User.id m = member)))
                                     (Workspace.members w)) w)
          end).
Proof.
  intros Hw. pose proof (targetOf_id _ _ _ Hw) as Hid.
  destruct op as [member permissions|member|member]; simpl.
  - rewrite updatePermissions_run, Hw.
    destruct (bool_decide _); [done|]. simpl.
    by apply (targetOf_after_save id w).
  - rewrite addMember_run.
    destruct (resolveMember env member db) as [[u|e] db1] eqn:Hres; simpl.
    + rewrite Hw. simpl.
      apply (targetOf_after_save id w).
      * unfold targetOf. by rewrite (resolveMember_workspaces env _ _ _ _ Hres).
      * by destruct (isMember (User.id u) w).
    + unfold targetOf. by rewrite (resolveMember_workspaces env _ _ _ _ Hres).
  - rewrite removeMember_run, Hw.
    destruct (bool_decide _); [done|]. simpl.
    by apply (targetOf_after_save id w).
Qed.

(** X5: a workspace whose members have distinct ids still has members with
    distinct ids after any change of permissions, any addition and any
    removal, whatever the arguments and whatever the answer. *)
Theorem member_ids_stay_distinct id op db w :
  targetOf id db = Some w →
  NoDup (memberIds w) →
  ∃ w', targetOf id (runOp env id op db).2 = Some w' ∧ NoDup (memberIds w').
Proof.
  intros Hw Hnd. eexists. split; [by apply runOp_target|].
  destruct op as [member permissions|member|member].
  - by destruct (bool_decide _).
  - destruct (resolveMember env member db).1 as [u|e]; [|done].
    destruct (isMember (User.id u) w) eqn:Hm; [done|].
    unfold memberIds. simpl. rewrite map_app. simpl.
    apply NoDup_app. split; [done|]. split; [|apply NoDup_singleton].
    intros x Hx ->%list_elem_of_singleton.
    apply isMember_iff in Hx. congruence.
  - destruct (bool_decide _); [done|].
    unfold memberIds. simpl. by apply NoDup_map_filter.
Qed.

(** X6: in a workspace whose owner is in the members list, no change of
    permissions, addition or removal, whatever its arguments, changes the
    owner, takes the owner out of the members or touches the owner's entry
    in the permissions map. *)
Theorem owner_is_kept id op db w :
  targetOf id db = Some w →
  listsOwner w = true →
  ∃ w', targetOf id (runOp env id op db).2 = Some w'
        ∧ Workspace.owner w' = Workspace.owner w
        ∧ listsOwner w' = true
        ∧ Workspace.permissions w' !! User.id (Workspace.owner w)
          = Workspace.permissions w !! User.id (Workspace.owner w).
Proof.
  intros Hw Hown. eexists. split; [by apply runOp_target|].
  unfold listsOwner in *.
  destruct op as [member permissions|member|member].
  - destruct (bool_decide _) eqn:Hb; [done|].
    apply bool_decide_eq_false in Hb.
    split; [done|]. split; [done|]. simpl. by rewrite lookup_insert_ne.
  - destruct (resolveMember env member db).1 as [u|e]; [|done].
    destruct (isMember (User.id u) w) eqn:Hm; [done|].
    assert (Hne : User.id u ≠ User.id (Workspace.owner w)) by congruence.
    split; [done|]. split.
    + apply isMember_iff. apply isMember_iff in Hown.
      unfold memberIds in *. simpl. rewrite map_app. apply elem_of_app. by left.
    + simpl. by rewrite lookup_insert_ne.
  - destruct (bool_decide _) eqn:Hb; [done|].
    apply bool_decide_eq_false in Hb.
    split; [done|]. split.
    + apply isMember_iff. apply isMember_iff in Hown.
      unfold memberIds in *. simpl.
      apply list_elem_of_fmap in Hown as (m & Hid & Hin).
      apply list_elem_of_fmap. exists m. split; [done|].
      apply elem_of_filter_bool. split; [done|].
      apply negb_true_iff, bool_decide_eq_false. congruence.
    + simpl. by rewrite lookup_delete_ne.
Qed.

(** X7: in a workspace whose owner is not in the members list, adding the
    owner puts the owner among the members and sets the owner's entry in
    the permissions map to the VIEWER default, whatever the entry was. *)
Theorem addMember_resets_an_unlisted_owner id member db w u db1 :
  targetOf id db = Some w →
  listsOwner w = false →
  resolveMember env member db = (Return u, db1) →
  User.id u = User.id (Workspace.owner w) →
  ∃ w', (addMember env id member db).1 = Return (successful w' Responses.Ok)
        ∧ targetOf id (addMember env id member db).2 = Some w'
        ∧ listsOwner w' = true
        ∧ Workspace.permissions w' !! User.id (Workspace.owner w)
          = Some (defaultPermissions env VIEWER).
Proof.
  intros Hw Hown Hres Hu.
  pose proof (runOp_target id (AddMember member) db w Hw) as Ht. simpl in Ht.
  rewrite addMember_run, Hres, Hw in *. simpl in *.
  unfold listsOwner in Hown. rewrite Hu, Hown in *.
  eexists. split; [reflexivity|]. split; [exact Ht|]. split.
  - unfold listsOwner. apply isMember_iff. unfold memberIds. simpl.
    rewrite map_app. apply elem_of_app. right. simpl.
    rewrite Hu. by apply list_elem_of_singleton.
  - simpl. apply lookup_insert_eq.
Qed.

End WorkspaceInvariants.

Lemma filter_out_again (member : string) (l : list User.t) :
  List.filter (fun m => negb (bool_decide (User.id m = member)))
    (List.filter (fun m => negb (bool_decide (User.id m = member))) l)
  = List.filter (fun m => negb (bool_decide (User.id m = member))) l.
Proof.
  induction l as [|y l IH]; [done|]. simpl.
  destruct (negb (bool_decide (User.id y = member))) eqn:Hy; [|done].
  simpl. rewrite Hy. by f_equal.
Qed.

Section Removal.
Import WorkspaceController.

Lemma removeMember_effect id member db w :
  targetOf id db = Some w →
  User.id (Workspace.owner w) ≠ member →
  ∃ w',
    removeMember id member db
      = (Return (successful w' Responses.Ok),
         set_workspaces (upsert WorkspaceService.sameRow w') db)
    ∧ targetOf id (removeMember id member db).2 = Some w'
    ∧ (∀ m, m ∈ Workspace.members w' ↔ m ∈ Workspace.members w ∧ User.id m ≠ member)
    ∧ (∀ k, Workspace.permissions w' !! k
            = if decide (k = member) then None else Workspace.permissions w !! k)
    ∧ Workspace.owner w' = Workspace.owner w
    ∧ Workspace.with_permissions
        (delete member (Workspace.permissions w'))
        (Workspace.with_members
           (List.filter (fun m => negb (bool_decide (User.id m = member)))
                        (Workspace.members w')) w') = w'.
Proof.
  intros Hw Hown. pose proof (targetOf_id _ _ _ Hw) as Hid.
  rewrite removeMember_run, Hw. rewrite bool_decide_eq_false_2 by done. simpl.
  set (w' := Workspace.with_permissions _ _).
  assert (Hw' : targetOf id (set_workspaces (upsert WorkspaceService.sameRow w') db)
                = Some w') by (by apply (targetOf_after_save id w)).
  exists w'. split; [done|]. split; [done|]. split; [|split; [|split; [done|]]].
  - intros m. unfold w'. simpl. rewrite elem_of_filter_bool.
    by rewrite negb_true_iff, bool_decide_eq_false.
  - intros k. unfold w'. simpl. destruct (decide (k = member)) as [->|Hk].
    + apply lookup_delete_eq.
    + by apply lookup_delete_ne.
  - unfold w', Workspace.with_permissions, Workspace.with_members. simpl.
    by rewrite filter_out_again, delete_delete_eq.
Qed.

(** X8: removing a member who is not the owner takes out the members with
    that id and nobody else, deletes that key of the permissions map and no
    other; the user need not have been a member; and removing the same
    member again answers the same and leaves the store as the first removal
    left it. *)
Theorem removeMember_is_exact_and_idempotent id member db w :
  targetOf id db = Some w →
  User.id (Workspace.owner w) ≠ member →
  ∃ w',
    (removeMember id member db).1 = Return (successful w' Responses.Ok)
    ∧ targetOf id (removeMember id member db).2 = Some w'
    ∧ (∀ m, m ∈ Workspace.members w' ↔ m ∈ Workspace.members w ∧ User.id m ≠ member)
    ∧ (∀ k, Workspace.permissions w' !! k
            = if decide (k = member) then None else Workspace.permissions w !! k)
    ∧ removeMember id member (removeMember id member db).2
      = removeMember id member db.
Proof.
  intros Hw Hown. pose proof (targetOf_id _ _ _ Hw) as Hid.
  destruct (removeMember_effect id member db w Hw Hown)
    as (w' & Hrun & Hw' & Hmem & Hperm & Hown' & Hsame).
  exists w'. split; [by rewrite Hrun|]. split; [done|]. split; [done|].
  split; [done|].
  rewrite (removeMember_run id member (removeMember id member db).2), Hw'.
  rewrite bool_decide_eq_false_2 by (by rewrite Hown').
  cbv zeta. rewrite Hsame, Hrun. simpl. f_equal.
  unfold set_workspaces. simpl. f_equal.
  apply workspace_save_save; [done|].
  apply (targetOf_present id db w Hw).
  rewrite Hrun in Hw'. by apply (targetOf_id _ _ _ Hw').
Qed.

End Removal.

(** ** Switching, once more *)

Lemma find_after_save_changed (P : UserToken.t → bool) t t' l :
  List.find P l = Some t →
  UserToken.id t' = UserToken.id t → P t' = true →
  List.find P (upsert AuthService.sameRow t' l) = Some t'.
Proof.
  intros Hfind Hid HP'. destruct (find_some_elem _ _ _ Hfind) as [Hin HP].
  assert (Hex : existsb (AuthService.sameRow t') l = true).
  { apply existsb_exists. exists t. split; [by apply list_elem_of_In|].
    by apply bool_decide_eq_true. }
  rewrite upsert_present by done. clear Hin Hex.
  induction l as [|y l IH]; [done|]. simpl in *.
  destruct (AuthService.sameRow t' y) eqn:Hs; [by rewrite HP'|].
  destruct (P y) eqn:HPy; [|by apply IH].
  injection Hfind as ->. apply bool_decide_eq_false in Hs. done.
Qed.

Lemma token_save_save t l :
  existsb (AuthService.sameRow t) l = true →
  upsert AuthService.sameRow t (upsert AuthService.sameRow t l)
  = upsert AuthService.sameRow t l.
Proof.
  intros Hex. rewrite (upsert_present _ t l Hex).
  rewrite upsert_present.
  - rewrite map_map. apply map_ext. intros y.
    destruct (AuthService.sameRow t y) eqn:Hs; [|by rewrite Hs].
    by rewrite token_sameRow_refl.
  - apply existsb_exists in Hex as (z & Hz & Hs). apply existsb_exists.
    exists t. split; [|apply token_sameRow_refl].
    apply in_map_iff. exists z. by rewrite Hs.
Qed.

Lemma others_after_save userId t t' l :
  NoDup (map UserToken.id l) → t ∈ l →
  UserToken.id t' = UserToken.id t →
  sessionUser t = userId → sessionUser t' = userId →
  othersOf userId (upsert AuthService.sameRow t' l) = othersOf userId l.
Proof.
  intros Hnd Hin Hid Hu Hu'.
  assert (Hex : existsb (AuthService.sameRow t') l = true).
  { apply existsb_exists. exists t. split; [by apply list_elem_of_In|].
    by apply bool_decide_eq_true. }
  rewrite upsert_present by done. clear Hex.
  assert (Hrow : ∀ y, y ∈ l → AuthService.sameRow t' y = true → y = t).
  { intros y Hy Hs. apply bool_decide_eq_true in Hs.
    apply (same_id_same_row l); [done..|congruence]. }
  assert (Ho : AuthService.ownedBy userId t = true) by (by apply ownedBy_iff).
  assert (Ho' : AuthService.ownedBy userId t' = true) by (by apply ownedBy_iff).
  clear Hnd Hin. unfold othersOf.
  induction l as [|y l IH]; [done|]. simpl.
  rewrite IH by (intros z Hz; apply Hrow; by right).
  destruct (AuthService.sameRow t' y) eqn:Hs; [|done].
  rewrite (Hrow y) by (done || by left). by rewrite Ho, Ho'.
Qed.

Section SwitchAgain.
Import AuthController.

Lemma updateWorkspace_switch_effect workspaceId user db w t :
  targetOf workspaceId db = Some w →
  qualifies user w = true →
  sessionOf user db = Some t →
  ∃ db',
    updateWorkspace workspaceId user db
      = (Return (successful (summary (UserToken.with_workspace w t)) Responses.Ok), db')
    ∧ sessionOf user db' = Some (UserToken.with_workspace w t)
    ∧ workspaces db' = workspaces db
    ∧ users db' = users db.
Proof.
  intros Hw Hq Ht. rewrite updateWorkspace_run, Hw, Ht, Hq.
  destruct (find_some_elem _ _ _ Ht) as [_ Ho].
  eexists. split; [reflexivity|]. split; [|done].
  unfold sessionOf. simpl. by apply (find_after_save_changed _ t).
Qed.

(** X10: a caller who is a member of the target workspace, or is keyed in
    its permissions map, and who has a session is switched: the answer
    names the target and carries the caller's entry of its permissions map,
    the session found afterwards is the old one on the new workspace, and
    neither users nor workspaces are written. *)
Theorem updateWorkspace_switches_who_qualifies workspaceId user db w t :
  targetOf workspaceId db = Some w →
  qualifies user w = true →
  sessionOf user db = Some t →
  ∃ db',
    updateWorkspace workspaceId user db
      = (Return (successful (summary (UserToken.with_workspace w t)) Responses.Ok), db')
    ∧ sessionOf user db' = Some (UserToken.with_workspace w t)
    ∧ ws_id (r_workspace (summary (UserToken.with_workspace w t))) = workspaceId
    ∧ ws_permissions (r_workspace (summary (UserToken.with_workspace w t)))
      = Workspace.permissions w !! user
    ∧ r_token (summary (UserToken.with_workspace w t)) = UserToken.token t
    ∧ workspaces db' = workspaces db
    ∧ users db' = users db.
Proof.
  intros Hw Hq Ht.
  destruct (updateWorkspace_switch_effect workspaceId user db w t Hw Hq Ht)
    as (db' & Hrun & Hs & Hws & Hus).
  destruct (find_some_elem _ _ _ Ht) as [_ Ho]. apply ownedBy_iff in Ho.
  exists db'. split; [done|]. split; [done|].
  split; [by apply (targetOf_id _ db)|].
  split; [simpl; by rewrite Ho|]. by split.
Qed.

(** X11: switching twice to the same workspace answers the same both times
    and leaves the store as the first switch left it; and when the rows of
    the session table have distinct identifiers, a switch leaves the
    sessions of every other user as they were. *)
Theorem updateWorkspace_is_idempotent_and_local workspaceId user db :
  updateWorkspace workspaceId user (updateWorkspace workspaceId user db).2
  = ((updateWorkspace workspaceId user db).1, (updateWorkspace workspaceId user db).2)
  ∧ (NoDup (map UserToken.id (tokens db)) →
     othersOf user (tokens (updateWorkspace workspaceId user db).2)
     = othersOf user (tokens db)).
Proof.
  rewrite (updateWorkspace_run workspaceId user db).
  destruct (targetOf workspaceId db) as [w|] eqn:Hw.
  2:{ simpl. by rewrite updateWorkspace_run, Hw. }
  destruct (sessionOf user db) as [t|] eqn:Ht.
  2:{ simpl. by rewrite updateWorkspace_run, Hw, Ht. }
  cbv zeta. simpl.
  destruct (find_some_elem _ _ _ Ht) as [Hin Ho].
  set (t' := if qualifies user w then UserToken.with_workspace w t else t).
  assert (Hid : UserToken.id t' = UserToken.id t) by (unfold t'; by destruct (qualifies user w)).
  assert (Hu : sessionUser t' = sessionUser t) by (unfold t'; by destruct (qualifies user w)).
  assert (Ho' : AuthService.ownedBy user t' = true).
  { apply ownedBy_iff. apply ownedBy_iff in Ho. unfold sessionUser in Hu. congruence. }
  split.
  - rewrite updateWorkspace_run.
    assert (targetOf workspaceId (set_tokens (upsert AuthService.sameRow t') db) = Some w)
      as -> by done.
    assert (sessionOf user (set_tokens (upsert AuthService.sameRow t') db) = Some t') as ->.
    { unfold sessionOf. simpl. by apply (find_after_save_changed _ t). }
    cbv zeta.
    assert ((if qualifies user w then UserToken.with_workspace w t' else t') = t') as ->.
    { unfold t'. by destruct (qualifies user w). }
    f_equal. unfold set_tokens. simpl. f_equal.
    apply token_save_save. apply existsb_exists. exists t.
    split; [by apply list_elem_of_In|]. by apply bool_decide_eq_true.
  - intros Hnd. apply (others_after_save user t); try done.
    + by apply ownedBy_iff in Ho.
    + by apply ownedBy_iff in Ho'.
Qed.

End SwitchAgain.

(** ** A write to a workspace, then the gate and the switch *)

(** A request with both headers, the credential of a stored session that
    has not expired, the address of a stored user, and a stored row under
    the id the session is on, passes [authMiddleware]: the context gets
    that user, the renewed session and that row, and only the session
    table is written. *)
Lemma authMiddleware_admits env now req db credential address t u w :
  header (authorization req) = Some credential →
  header (signerAddress req) = Some address →
  List.find (fun s => bool_decide (UserToken.token s = credential)) (tokens db) = Some t →
  TokenUtils.expired now t = false →
  List.find (fun x => bool_decide (User.address x = address)) (users db) = Some u →
  targetOf (Workspace.id (UserToken.workspace t)) db = Some w →
  ∃ t' db',
    authMiddleware env now req db
    = ((next, {| authorization := authorization req;
                 signerAddress := signerAddress req;
                 user := Some u;
                 userToken := Some t';
                 workspace := Some w |}), db')
    ∧ UserToken.workspace t' = UserToken.workspace t
    ∧ workspaces db' = workspaces db
    ∧ users db' = users db.
Proof.
  intros Hsig Haddr Ht Hlive Hu Hw.
  unfold authMiddleware. rewrite Hsig, Haddr.
  unfold TokenUtils.recoverToken, TokenUtils.renewToken, TokenUtils.checkUserExists,
    UserService.findByAddress, AuthService.save, bind, read, write, ret.
  rewrite Ht, Hlive. cbn [users set_tokens]. rewrite Hu.
  unfold TokenUtils.findLoggedWorkspace, WorkspaceService.list, bind, read, ret.
  cbn [workspaces set_tokens UserToken.workspace UserToken.with_expired_at].
  unfold targetOf in Hw. rewrite Hw.
  eexists. eexists. split; [reflexivity|]. by repeat split.
Qed.

Section AfterAWrite.
Import AuthController WorkspaceController.

(** X12: once a member who is not the owner has been removed, the workspace
    as stored no longer qualifies that user for a switch and rejects that
    user at the gate with MISSING_PERMISSION for every non-empty
    requirement and under every validator.  A request of that user's with
    the credential of a session on that workspace, not expired, still
    passes [authMiddleware], which attaches the user and the workspace as
    stored after the removal, and is then refused by the gate with
    MISSING_PERMISSION. *)
Theorem removed_member_is_shut_out id member db w :
  targetOf id db = Some w →
  User.id (Workspace.owner w) ≠ member →
  ∃ w',
    targetOf id (removeMember id member db).2 = Some w'
    ∧ qualifies member w' = false
    ∧ (∀ env required req u,
         required ≠ [] → user req = Some u → User.id u = member →
         workspace req = Some w' →
         authPermissionMiddleware env (Some required) req = missingPermission)
    ∧ (∀ env now req credential address t u required,
         header (authorization req) = Some credential →
         header (signerAddress req) = Some address →
         List.find (fun s => bool_decide (UserToken.token s = credential)) (tokens db)
         = Some t →
         TokenUtils.expired now t = false →
         Workspace.id (UserToken.workspace t) = id →
         List.find (fun x => bool_decide (User.address x = address)) (users db)
         = Some u →
         User.id u = member →
         required ≠ [] →
         ∃ req' db',
           authMiddleware env now req (removeMember id member db).2 = ((next, req'), db')
           ∧ user req' = Some u
           ∧ workspace req' = Some w'
           ∧ authPermissionMiddleware env (Some required) req' = missingPermission).
Proof.
  intros Hw Hown.
  destruct (removeMember_effect id member db w Hw Hown)
    as (w' & Hrun & Hw' & Hmem & Hperm & _).
  assert (Hq : qualifies member w' = false).
  { apply outsider_does_not_qualify.
    - destruct (List.find _ (Workspace.members w')) as [m|] eqn:Hf; [|done].
      apply find_some_elem in Hf as [Hin Hid].
      apply bool_decide_eq_true in Hid. by apply Hmem in Hin as [_ ?].
    - rewrite Hperm. by rewrite decide_True. }
  assert (Hgate : ∀ env required req u,
             required ≠ [] → user req = Some u → User.id u = member →
             workspace req = Some w' →
             authPermissionMiddleware env (Some required) req = missingPermission).
  { intros env required req u Hreq Hu Hid Hws.
    rewrite (gate_with_context env required req u w' Hreq Hu Hws).
    rewrite Hid, Hperm. by rewrite decide_True. }
  exists w'. split; [done|]. split; [done|]. split; [done|].
  intros env now req credential address t u required
    Hsig Haddr Ht Hlive Hon Hu Hid Hreq.
  rewrite Hrun in Hw'. cbn [snd] in Hw'. rewrite Hrun. cbn [snd].
  destruct (authMiddleware_admits env now req
              (set_workspaces (upsert WorkspaceService.sameRow w') db)
              credential address t u w' Hsig Haddr Ht Hlive Hu)
    as (t' & db' & Hrun' & _).
  { by rewrite Hon. }
  eexists. exists db'. split; [exact Hrun'|]. split; [done|]. split; [done|].
  by apply (Hgate env required _ u).
Qed.

(** X13: a change of permissions for any user who is not the owner, member
    of the workspace or not, leaves the members list alone and keys the
    user in the permissions map; from then on the user qualifies for the
    switch, and a user with a session is moved to the workspace. *)
Theorem permission_entry_opens_the_switch id member permissions db w t :
  targetOf id db = Some w →
  User.id (Workspace.owner w) ≠ member →
  sessionOf member db = Some t →
  ∃ w',
    targetOf id (updatePermissions id member permissions db).2 = Some w'
    ∧ Workspace.members w' = Workspace.members w
    ∧ Workspace.permissions w' !! member = Some permissions
    ∧ qualifies member w' = true
    ∧ (updateWorkspace id member (updatePermissions id member permissions db).2).1
      = Return (successful (summary (UserToken.with_workspace w' t)) Responses.Ok)
    ∧ sessionOf member
        (updateWorkspace id member (updatePermissions id member permissions db).2).2
      = Some (UserToken.with_workspace w' t).
Proof.
  intros Hw Hown Ht.
  pose proof (targetOf_id _ _ _ Hw) as Hid.
  rewrite updatePermissions_run, Hw. rewrite bool_decide_eq_false_2 by done.
  cbv zeta. cbn [snd].
  set (w' := Workspace.with_permissions _ _).
  set (db1 := set_workspaces _ db).
  assert (Hw' : targetOf id db1 = Some w') by (by apply (targetOf_after_save id w)).
  assert (Hq : qualifies member w' = true).
  { unfold qualifies. apply orb_true_iff. right. apply bool_decide_eq_true.
    exists permissions. apply lookup_insert_eq. }
  assert (Ht' : sessionOf member db1 = Some t) by done.
  destruct (updateWorkspace_switch_effect id member db1 w' t Hw' Hq Ht')
    as (db2 & Hrun & Hs & _).
  exists w'. split; [done|]. split; [done|].
  split; [apply lookup_insert_eq|]. split; [done|].
  rewrite Hrun. by split.
Qed.

End AfterAWrite.

(** ** Signing in, once more *)

Lemma othersOf_idem userId l : othersOf userId (othersOf userId l) = othersOf userId l.
Proof.
  unfold othersOf. induction l as [|y l IH]; [done|]. simpl.
  destruct (negb (AuthService.ownedBy userId y)) eqn:Hy; [|done].
  simpl. rewrite Hy. by f_equal.
Qed.

Section SignInAgain.
Context (env : Env).
Import AuthController.

(** What a successful sign-in looked up. *)
Lemma signIn_successful_lookups body b db t status db' :
  typedBody body = Some b →
  signIn env body db = (Return (successful t status), db') →
  List.find (fun u => bool_decide (User.id u = user_id b)) (users db)
    = Some (UserToken.user t)
  ∧ head (List.filter (WorkspaceService.matches (workspaceFilter b)) (workspaces db))
    = Some (UserToken.workspace t)
  ∧ UserToken.token t = signature b.
Proof.
  intros Hb. rewrite signIn_run, Hb.
  destruct (verifySignature env _ _ _) as [e|].
  { by destruct (instanceof_GeneralError e). }
  simpl. destruct (List.find _ (users db)) as [u|] eqn:Hu; [|done].
  destruct (head _) as [w|]; [|done].
  by intros [= <- _ _].
Qed.

(** X14: a sign-in whose signature the verifier refuses writes nothing, so
    a session the user has stays; it answers with the verifier's own error
    when that is a GeneralError and with an error made of its [error] and
    [statusCode] otherwise, and never with success. *)
Theorem signIn_refused_signature_writes_nothing body b db e :
  typedBody body = Some b →
  verifySignature env (signature b) (signedMessage body) (address b) = Some e →
  signIn env body db
  = (if instanceof_GeneralError e then Throw e
     else Return (error (exn_error e) (exn_statusCode e)), db)
  ∧ sessionOf (user_id b) (signIn env body db).2 = sessionOf (user_id b) db
  ∧ ∀ t status, (signIn env body db).1 ≠ Return (successful t status).
Proof.
  intros Hb Hv. rewrite signIn_run, Hb, Hv.
  split; [done|]. split; [done|].
  intros t status. simpl. by destruct (instanceof_GeneralError e).
Qed.

(** X15: the session of a successful sign-in is for the user row whose id
    is the body's [user_id], carries the body's [signature] as its token,
    and is on a stored workspace: the one whose id is the body's non-empty
    [workspace_id], with no look at its members, owner or permissions map;
    or, with [workspace_id] absent or empty, one that the user owns and
    that is [single]. *)
Theorem signIn_binds_the_named_workspace body b db t status db' :
  typedBody body = Some b →
  signIn env body db = (Return (successful t status), db') →
  UserToken.user t ∈ users db
  ∧ User.id (UserToken.user t) = user_id b
  ∧ UserToken.token t = signature b
  ∧ UserToken.workspace t ∈ workspaces db
  ∧ match workspace_id b with
    | Some (String c rest) =>
        targetOf (String c rest) db = Some (UserToken.workspace t)
    | _ =>
        User.id (Workspace.owner (UserToken.workspace t)) = user_id b
        ∧ Workspace.single (UserToken.workspace t) = true
    end.
Proof.
  intros Hb Hrun.
  destruct (signIn_successful_lookups _ _ _ _ _ _ Hb Hrun) as (Hu & Hw & Htok).
  apply find_some_elem in Hu as [Huin Huid]. apply bool_decide_eq_true in Huid.
  assert (Hwin : UserToken.workspace t
                 ∈ List.filter (WorkspaceService.matches (workspaceFilter b))
                     (workspaces db)).
  { destruct (List.filter _ (workspaces db)) as [|x xs]; [done|].
    simpl in Hw. injection Hw as ->. by left. }
  apply elem_of_filter_bool in Hwin as [Hwin Hm].
  split; [done|]. split; [done|]. split; [done|]. split; [done|].
  unfold workspaceFilter in *.
  destruct (workspace_id b) as [[|c rest]|]; simpl in Hm.
  - apply andb_true_iff in Hm as [Ho Hs]. by apply bool_decide_eq_true in Ho.
  - done.
  - apply andb_true_iff in Hm as [Ho Hs]. by apply bool_decide_eq_true in Ho.
Qed.

(** X16: whatever a sign-in answers, it writes neither users nor
    workspaces and leaves the sessions of every user other than the body's
    [user_id] as they were; a body the route's validator refuses writes
    nothing at all. *)
Theorem signIn_touches_one_users_sessions body db :
  users (signIn env body db).2 = users db
  ∧ workspaces (signIn env body db).2 = workspaces db
  ∧ (∀ b, typedBody body = Some b →
       othersOf (user_id b) (tokens (signIn env body db).2)
       = othersOf (user_id b) (tokens db))
  ∧ (typedBody body = None → (signIn env body db).2 = db).
Proof.
  rewrite signIn_run.
  destruct (typedBody body) as [b|]; [|done].
  destruct (verifySignature env _ _ _) as [e|]; [done|]. cbv zeta.
  destruct (List.find _ (users db)) as [u|] eqn:Hu.
  2:{ split; [done|]. split; [done|]. split; [|done].
      intros b' [= <-]. simpl. apply othersOf_idem. }
  destruct (head _) as [w|].
  2:{ split; [done|]. split; [done|]. split; [|done].
      intros b' [= <-]. simpl. apply othersOf_idem. }
  split; [done|]. split; [done|]. split; [|done].
  intros b' [= <-]. simpl. apply othersOf_again.
  apply List.find_some in Hu as [_ Hu]. by apply bool_decide_eq_true in Hu.
Qed.

End SignInAgain.

(** ** The credentials middleware *)

(** X17: a request without the authorization header or without the
    signerAddress header, an empty header counting as none, is passed on
    with MISSING_CREDENTIALS; the store and the request context are left as
    they were. *)
Theorem authMiddleware_needs_both_headers env now req db :
  authorization req = None ∨ authorization req = Some ""
  ∨ signerAddress req = None ∨ signerAddress req = Some "" →
  authMiddleware env now req db = ((missingCredentials, req), db).
Proof.
  unfold authMiddleware.
  intros [H|[H|[H|H]]]; rewrite H; simpl; try done;
    by destruct (header (authorization req)).
Qed.

(** ** Reserved coins *)

Lemma filter_Permutation {A} (P : A → bool) (l l' : list A) :
  Permutation l l' → Permutation (List.filter P l) (List.filter P l').
Proof.
  induction 1 as [|x l l' _ IH|x y l|l l' l'' _ IH1 _ IH2]; simpl.
  - done.
  - destruct (P x); [by constructor|done].
  - destruct (P x), (P y); try done. apply perm_swap.
  - by etrans.
Qed.

Section ReservedCoins.
Context (parseUnits : string → Result Z).
Import PredicateController.

Lemma totalOf_app l1 l2 :
  totalOf parseUnits (l1 ++ l2) =
    match totalOf parseUnits l1, totalOf parseUnits l2 with
    | Some a, Some b => Some (a + b)
    | _, _ => None
    end.
Proof.
  induction l1 as [|s l1 IH]; simpl.
  - by destruct (totalOf parseUnits l2).
  - rewrite IH. destruct (parsed parseUnits s) as [v|]; [|done].
    destruct (totalOf parseUnits l1) as [a|]; [|done].
    destruct (totalOf parseUnits l2) as [b|]; [|done].
    f_equal. lia.
Qed.

Lemma totalOf_Permutation l l' :
  Permutation l l' → totalOf parseUnits l = totalOf parseUnits l'.
Proof.
  induction 1 as [|x l l' _ IH|x y l|l l' l'' _ IH1 _ IH2]; simpl.
  - done.
  - by rewrite IH.
  - destruct (parsed parseUnits x) as [a|], (parsed parseUnits y) as [b|],
      (totalOf parseUnits l) as [c|]; try done. f_equal. lia.
  - congruence.
Qed.

Lemma fold_thrown {A} (step : Result Z → A → Result Z) e l :
  (∀ e' a, step (Throw e') a = Throw e') → ∃ e', foldl step (Throw e) l = Throw e'.
Proof.
  intros Hstep. revert e. induction l as [|a l IH]; intros e; simpl; [by eexists|].
  rewrite Hstep. apply IH.
Qed.

(** The inner [reduce], from an accumulator that holds a number. *)
Lemma assets_fold x l :
  match totalOf parseUnits (map amount l) with
  | Some v =>
      foldl (fun acc a =>
               andThen acc (fun x =>
               andThen (parseUnits (amount a)) (fun v => Return (x + v))))
            (Return x) l = Return (x + v)
  | None =>
      ∃ e, foldl (fun acc a =>
                    andThen acc (fun x =>
                    andThen (parseUnits (amount a)) (fun v => Return (x + v))))
                 (Return x) l = Throw e
  end.
Proof.
  revert x. induction l as [|a l IH]; intros x; simpl.
  - f_equal. lia.
  - unfold parsed. destruct (parseUnits (amount a)) as [v0|e]; simpl.
    + specialize (IH (x + v0)).
      destruct (totalOf parseUnits (map amount l)) as [v|]; [|done].
      rewrite IH. f_equal. lia.
    + by apply fold_thrown.
Qed.

Lemma assetsTotal_total l :
  parseUnits "0" = Return 0 →
  match totalOf parseUnits (map amount l) with
  | Some v => assetsTotal parseUnits l = Return v
  | None => ∃ e, assetsTotal parseUnits l = Throw e
  end.
Proof.
  intros H0. unfold assetsTotal. rewrite H0.
  pose proof (assets_fold 0 l) as Ha.
  destruct (totalOf parseUnits (map amount l)) as [v|]; [|done].
  by rewrite Ha.
Qed.

(** The outer [reduce], likewise. *)
Lemma transactions_fold x (l : list Transaction) :
  parseUnits "0" = Return 0 →
  match totalOf parseUnits (flat_map (fun t => map amount (assets t)) l) with
  | Some v =>
      foldl (fun acc t =>
               andThen acc (fun x =>
               andThen (assetsTotal parseUnits (assets t)) (fun v => Return (x + v))))
            (Return x) l = Return (x + v)
  | None =>
      ∃ e, foldl (fun acc t =>
                    andThen acc (fun x =>
                    andThen (assetsTotal parseUnits (assets t)) (fun v => Return (x + v))))
                 (Return x) l = Throw e
  end.
Proof.
  intros H0. revert x. induction l as [|t l IH]; intros x.
  - simpl. f_equal. lia.
  - cbn [foldl flat_map]. rewrite totalOf_app.
    pose proof (assetsTotal_total (assets t) H0) as Ha.
    destruct (totalOf parseUnits (map amount (assets t))) as [a|].
    + rewrite Ha. cbn [andThen]. specialize (IH (x + a)).
      destruct (totalOf parseUnits (flat_map _ l)) as [v|]; [|done].
      rewrite IH. f_equal. lia.
    + destruct Ha as [e ->]. cbn [andThen]. by apply fold_thrown.
Qed.

Lemma hasReservedCoins_closed data :
  parseUnits "0" = Return 0 →
  hasReservedCoins parseUnits (Return data)
  = successful (default 0 (totalOf parseUnits (reservedAmounts data))) Responses.Ok.
Proof.
  intros H0. unfold hasReservedCoins, reservedTotal, reservedAmounts.
  cbn [andThen]. rewrite H0.
  pose proof (transactions_fold 0 (List.filter reserved data) H0) as Hf.
  destruct (totalOf parseUnits _) as [v|].
  - by rewrite Hf.
  - destruct Hf as [e ->]. done.
Qed.

(** X18: when [bn.parseUnits('0')] is zero, [hasReservedCoins] always
    answers with success: with the sum of the amounts of the transactions
    awaiting requirements or pending a sender when all of those amounts
    parse, transactions in any other status never being looked at; and with
    zero when one of those amounts does not parse or the listing fails. *)
Theorem hasReservedCoins_is_the_reserved_total :
  parseUnits "0" = Return 0 →
  (∀ data,
     hasReservedCoins parseUnits (Return data)
     = successful (default 0 (totalOf parseUnits (reservedAmounts data))) Responses.Ok)
  ∧ (∀ data,
       hasReservedCoins parseUnits (Return data)
       = hasReservedCoins parseUnits (Return (List.filter reserved data)))
  ∧ (∀ e, hasReservedCoins parseUnits (Throw e) = successful 0 Responses.Ok).
Proof.
  intros H0.
  split; [intros data; by apply hasReservedCoins_closed|]. split.
  - intros data. rewrite !hasReservedCoins_closed by done. unfold reservedAmounts.
    assert (List.filter reserved (List.filter reserved data) = List.filter reserved data)
      as ->; [|done].
    induction data as [|t l IH]; [done|]. simpl.
    destruct (reserved t) eqn:Ht; [|done]. simpl. rewrite Ht. by f_equal.
  - intros e. unfold hasReservedCoins. simpl. by rewrite H0.
Qed.

(** X19: when [bn.parseUnits('0')] is zero, the answer of
    [hasReservedCoins] does not depend on the order in which the service
    lists the transactions. *)
Theorem hasReservedCoins_ignores_the_order data data' :
  parseUnits "0" = Return 0 →
  Permutation data data' →
  hasReservedCoins parseUnits (Return data) = hasReservedCoins parseUnits (Return data').
Proof.
  intros H0 Hperm. rewrite !hasReservedCoins_closed by done.
  f_equal. f_equal.
  apply totalOf_Permutation. unfold reservedAmounts.
  apply Permutation_flat_map. by apply filter_Permutation.
Qed.

End ReservedCoins.

(** ** The predicate listing *)

Section PredicateListing.
Import PredicateService.

Lemma listWheres_closed f : listWheres f = lastWhere f ++ searchWhere (q f).
Proof.
  unfold listWheres, lastWhere, searchWhere, when_, given, where_, andWhere.
  destruct (address f) as [[|? ?]|], (provider f) as [[|? ?]|],
    (owner f) as [[|? ?]|], (signer f) as [[|? ?]|], (q f) as [[|? ?]|];
    reflexivity.
Qed.

(** X20: of the address, provider, owner and signer of the filter, [list]
    applies one only, the last given in that order, the others being
    replaced; the search text adds one expression to it; and the
    [workspace] of the filter changes nothing of the query. *)
Theorem list_applies_the_last_filter_only f :
  listWheres f = lastWhere f ++ searchWhere (q f)
  ∧ (List.length (lastWhere f) ≤ 1)%nat
  ∧ (∀ s, given (signer f) = Some s →
       lastWhere f = [(simple, SignerAmongAddresses s)])
  ∧ ∀ ids,
      listWheres {| address := address f; provider := provider f; owner := owner f;
                    q := q f; workspace := ids; signer := signer f |}
      = listWheres f.
Proof.
  split; [apply listWheres_closed|]. split; [|split].
  - unfold lastWhere.
    destruct (given (signer f)), (given (owner f)), (given (provider f)),
      (given (address f)); simpl; lia.
  - intros s Hs. unfold lastWhere. by rewrite Hs.
  - intros ids. by rewrite !listWheres_closed.
Qed.

(** X21: the query [PredicateController.list] makes.  In the user's single
    workspace, the user's address being non-empty, it asks for the
    predicates the user signs, and the address, provider and owner of the
    request have no effect on it; in any other workspace it is the query of
    the request's own filters, the same whichever workspace that is; the
    search text counts in both.  Without a single workspace the filter is
    never built. *)
Theorem predicate_list_query query u w sw allWk :
  predicateListFilter query u w None allWk = Throw TypeError
  ∧ (Workspace.id sw = Workspace.id w →
     User.address u ≠ "" →
     andThen (predicateListFilter query u w (Some sw) allWk)
             (fun f => Return (listWheres f))
     = Return ((simple, SignerAmongAddresses (User.address u))
               :: searchWhere (PredicateController.lq_q query)))
  ∧ (Workspace.id sw ≠ Workspace.id w →
     andThen (predicateListFilter query u w (Some sw) allWk)
             (fun f => Return (listWheres f))
     = Return (listWheres
                 {| address := PredicateController.lq_address query;
                    provider := PredicateController.lq_provider query;
                    owner := PredicateController.lq_owner query;
                    q := PredicateController.lq_q query;
                    workspace := None;
                    signer := None |})).
Proof.
  split; [done|]. split.
  - intros Hid Haddr. unfold predicateListFilter.
    rewrite bool_decide_eq_true_2 by done. cbn [andThen].
    rewrite listWheres_closed. unfold lastWhere. simpl.
    by destruct (User.address u).
  - intros Hid. unfold predicateListFilter.
    rewrite bool_decide_eq_false_2 by done. simpl.
    by rewrite !listWheres_closed.
Qed.

End PredicateListing.

(** * The further properties on the sample deployment *)

Import Scenario.
Import Shared.

(** Bob's and Carol's entries in the shared workspace, written in either
    order. *)
Lemma updatePermissions_commute_and_overwrite_witness :
  (targetOf "w2" db0 = Some w2
   ∧ User.id (Workspace.owner w2) ≠ "u2" ∧ User.id (Workspace.owner w2) ≠ "u3")
  ∧ (WorkspaceController.updatePermissions "w2" "u3" custom
       (WorkspaceController.updatePermissions "w2" "u2" viewerDefault db0).2).2
    = (WorkspaceController.updatePermissions "w2" "u2" viewerDefault
         (WorkspaceController.updatePermissions "w2" "u3" custom db0).2).2
  ∧ (WorkspaceController.updatePermissions "w2" "u2" custom
       (WorkspaceController.updatePermissions "w2" "u2" viewerDefault db0).2).2
    = (WorkspaceController.updatePermissions "w2" "u2" custom db0).2.
Proof.
  assert (H1 : targetOf "w2" db0 = Some w2) by (vm_compute; reflexivity).
  assert (H2 : User.id (Workspace.owner w2) ≠ "u2") by discriminate.
  assert (H3 : User.id (Workspace.owner w2) ≠ "u3") by discriminate.
  split; [by repeat split|].
  destruct (updatePermissions_commute_and_overwrite "w2" "u2" viewerDefault "u3" custom
              db0 w2 H1 H2 H3) as [E1 E2].
  split; [apply E1; discriminate|exact E2].
Defined.

Lemma unknown_workspace_is_an_untyped_error_witness :
  targetOf "w9" db0 = None
  ∧ WorkspaceController.updatePermissions "w9" "u2" custom db0
    = (Return (error None None), db0)
  ∧ WorkspaceController.removeMember "w9" "u2" db0 = (Return (error None None), db0).
Proof.
  assert (H1 : targetOf "w9" db0 = None) by (vm_compute; reflexivity).
  split; [exact H1|].
  exact (unknown_workspace_is_an_untyped_error "w9" "u2" custom db0 H1).
Defined.

Lemma addMember_creates_the_user_before_it_fails_witness :
  (targetOf "w9" db0 = None ∧ (36 < String.length strangerAddress)%nat)
  ∧ users (WorkspaceController.addMember env "w9" strangerAddress db0).2
    = users db0 ++ [User.mk "user-0" strangerAddress "avatar-0.png"
                      "https://provider.example/graphql"]
  ∧ (WorkspaceController.addMember env "w9" strangerAddress db0).1
    = Return (error None None).
Proof.
  assert (H1 : targetOf "w9" db0 = None) by (vm_compute; reflexivity).
  assert (H2 : (36 < String.length strangerAddress)%nat) by (vm_compute; lia).
  assert (H3 : List.find (fun u => bool_decide (User.address u = strangerAddress))
                 (users db0) = None) by (vm_compute; reflexivity).
  split; [by split|].
  rewrite (addMember_creates_the_user_before_it_fails env "w9" strangerAddress db0
             H1 H2 H3).
  split; reflexivity.
Defined.

(** Bob is in the shared workspace under a custom entry: adding him again
    leaves the entry. *)
Lemma addMember_keeps_a_member_witness :
  (targetOf "w2" db0 = Some w2
   ∧ WorkspaceController.resolveMember env "u2" db0 = (Return bob, db0)
   ∧ WorkspaceController.isMember (User.id bob) w2 = true)
  ∧ (WorkspaceController.addMember env "w2" "u2" db0).1
    = Return (successful w2 Responses.Ok)
  ∧ targetOf "w2" (WorkspaceController.addMember env "w2" "u2" db0).2 = Some w2
  ∧ Workspace.permissions w2 !! "u2" = Some custom.
Proof.
  assert (H1 : targetOf "w2" db0 = Some w2) by (vm_compute; reflexivity).
  assert (H2 : WorkspaceController.resolveMember env "u2" db0 = (Return bob, db0))
    by (vm_compute; reflexivity).
  assert (H3 : WorkspaceController.isMember (User.id bob) w2 = true)
    by (vm_compute; reflexivity).
  split; [by repeat split|].
  destruct (addMember_keeps_a_member env "w2" "u2" db0 w2 bob db0 H1 H2 H3) as [E1 E2].
  split; [exact E1|]. split; [exact E2|vm_compute; reflexivity].
Defined.

Lemma member_ids_stay_distinct_witness :
  (targetOf "w2" db0 = Some w2 ∧ NoDup (memberIds w2))
  ∧ ∃ w', targetOf "w2" (runOp env "w2" (AddMember "u3") db0).2 = Some w'
          ∧ NoDup (memberIds w').
Proof.
  assert (H1 : targetOf "w2" db0 = Some w2) by (vm_compute; reflexivity).
  assert (H2 : NoDup (memberIds w2)).
  { unfold memberIds. simpl. apply NoDup_cons.
    split; [by intros ?%list_elem_of_singleton|apply NoDup_singleton]. }
  split; [by split|].
  exact (member_ids_stay_distinct env "w2" (AddMember "u3") db0 w2 H1 H2).
Defined.

Lemma owner_is_kept_witness :
  (targetOf "w2" db0 = Some w2 ∧ listsOwner w2 = true)
  ∧ ∃ w', targetOf "w2" (runOp env "w2" (AddMember "u1") db0).2 = Some w'
          ∧ Workspace.owner w' = Workspace.owner w2
          ∧ listsOwner w' = true
          ∧ Workspace.permissions w' !! User.id (Workspace.owner w2)
            = Workspace.permissions w2 !! User.id (Workspace.owner w2).
Proof.
  assert (H1 : targetOf "w2" db0 = Some w2) by (vm_compute; reflexivity).
  assert (H2 : listsOwner w2 = true) by (vm_compute; reflexivity).
  split; [by split|].
  exact (owner_is_kept env "w2" (AddMember "u1") db0 w2 H1 H2).
Defined.

(** Carol owns the vault team's workspace without being listed in it. *)
Lemma addMember_resets_an_unlisted_owner_witness :
  (targetOf "w4" db4 = Some w4
   ∧ listsOwner w4 = false
   ∧ Workspace.permissions w4 !! "u3" = Some ownerDefault)
  ∧ ∃ w', (WorkspaceController.addMember env "w4" "u3" db4).1
          = Return (successful w' Responses.Ok)
          ∧ listsOwner w' = true
          ∧ Workspace.permissions w' !! User.id (Workspace.owner w4) = Some viewerDefault.
Proof.
  assert (H1 : targetOf "w4" db4 = Some w4) by (vm_compute; reflexivity).
  assert (H2 : listsOwner w4 = false) by (vm_compute; reflexivity).
  assert (H3 : WorkspaceController.resolveMember env "u3" db4 = (Return carol, db4))
    by (vm_compute; reflexivity).
  assert (H4 : User.id carol = User.id (Workspace.owner w4)) by reflexivity.
  split; [split; [exact H1|split; [exact H2|vm_compute; reflexivity]]|].
  destruct (addMember_resets_an_unlisted_owner env "w4" "u3" db4 w4 carol db4
              H1 H2 H3 H4) as (w' & E1 & _ & E2 & E3).
  exists w'. split; [exact E1|]. split; [exact E2|exact E3].
Defined.

Lemma removeMember_is_exact_and_idempotent_witness :
  (targetOf "w2" db0 = Some w2 ∧ User.id (Workspace.owner w2) ≠ "u2")
  ∧ ∃ w', (WorkspaceController.removeMember "w2" "u2" db0).1
          = Return (successful w' Responses.Ok)
          ∧ (bob ∈ Workspace.members w' ↔ bob ∈ Workspace.members w2 ∧ User.id bob ≠ "u2")
          ∧ Workspace.permissions w' !! "u1" = Workspace.permissions w2 !! "u1"
          ∧ WorkspaceController.removeMember "w2" "u2"
              (WorkspaceController.removeMember "w2" "u2" db0).2
            = WorkspaceController.removeMember "w2" "u2" db0.
Proof.
  assert (H1 : targetOf "w2" db0 = Some w2) by (vm_compute; reflexivity).
  assert (H2 : User.id (Workspace.owner w2) ≠ "u2") by discriminate.
  split; [by split|].
  destruct (removeMember_is_exact_and_idempotent "w2" "u2" db0 w2 H1 H2)
    as (w' & E1 & _ & E2 & E3 & E4).
  exists w'. split; [exact E1|]. split; [exact (E2 bob)|].
  split; [exact (E3 "u1")|exact E4].
Defined.

(** Alice, signed in on her own workspace, switches to the shared one. *)
Lemma updateWorkspace_switches_who_qualifies_witness :
  (targetOf "w2" db1 = Some w2 ∧ qualifies "u1" w2 = true
   ∧ sessionOf "u1" db1 = Some session1)
  ∧ ∃ db',
      AuthController.updateWorkspace "w2" "u1" db1
        = (Return (successful
                     (AuthController.summary (UserToken.with_workspace w2 session1))
                     Responses.Ok), db')
      ∧ sessionOf "u1" db' = Some (UserToken.with_workspace w2 session1)
      ∧ AuthController.ws_permissions
          (AuthController.r_workspace
             (AuthController.summary (UserToken.with_workspace w2 session1)))
        = Some ownerDefault.
Proof.
  assert (H1 : targetOf "w2" db1 = Some w2) by (vm_compute; reflexivity).
  assert (H2 : qualifies "u1" w2 = true) by (vm_compute; reflexivity).
  assert (H3 : sessionOf "u1" db1 = Some session1) by (vm_compute; reflexivity).
  split; [by repeat split|].
  destruct (updateWorkspace_switches_who_qualifies "w2" "u1" db1 w2 session1 H1 H2 H3)
    as (db' & E1 & E2 & _ & E3 & _).
  exists db'. split; [exact E1|]. split; [exact E2|].
  rewrite E3. vm_compute. reflexivity.
Defined.

Lemma updateWorkspace_is_idempotent_and_local_witness :
  NoDup (map UserToken.id (tokens db1))
  ∧ AuthController.updateWorkspace "w2" "u1"
      (AuthController.updateWorkspace "w2" "u1" db1).2
    = ((AuthController.updateWorkspace "w2" "u1" db1).1,
       (AuthController.updateWorkspace "w2" "u1" db1).2)
  ∧ othersOf "u1" (tokens (AuthController.updateWorkspace "w2" "u1" db1).2)
    = othersOf "u1" (tokens db1).
Proof.
  assert (H1 : NoDup (map UserToken.id (tokens db1))).
  { vm_compute. apply NoDup_singleton. }
  destruct (updateWorkspace_is_idempotent_and_local "w2" "u1" db1) as [E1 E2].
  split; [exact H1|]. split; [exact E1|exact (E2 H1)].
Defined.

(** Bob, signed in on the shared workspace, is removed from it: his next
    request passes [authMiddleware] with the workspace as stored, without
    his entry, and the gate refuses it. *)
Lemma removed_member_is_shut_out_witness :
  (targetOf "w2" dbBob = Some w2 ∧ User.id (Workspace.owner w2) ≠ "u2")
  ∧ ∃ w',
      targetOf "w2" (WorkspaceController.removeMember "w2" "u2" dbBob).2 = Some w'
      ∧ qualifies "u2" w' = false
      ∧ authPermissionMiddleware env (Some [VIEWER]) (context (Some bob) (Some w'))
        = missingPermission
      ∧ ∃ req' db',
          authMiddleware env 2000 bobsRequest
            (WorkspaceController.removeMember "w2" "u2" dbBob).2 = ((next, req'), db')
          ∧ user req' = Some bob
          ∧ workspace req' = Some w'
          ∧ authPermissionMiddleware env (Some [VIEWER]) req' = missingPermission.
Proof.
  assert (H1 : targetOf "w2" dbBob = Some w2) by (vm_compute; reflexivity).
  assert (H2 : User.id (Workspace.owner w2) ≠ "u2") by discriminate.
  split; [by split|].
  destruct (removed_member_is_shut_out "w2" "u2" dbBob w2 H1 H2)
    as (w' & E1 & E2 & E3 & E4).
  exists w'. split; [exact E1|]. split; [exact E2|]. split.
  - apply (E3 env [VIEWER] (context (Some bob) (Some w')) bob);
      [discriminate|reflexivity|reflexivity|reflexivity].
  - apply (E4 env 2000 bobsRequest "sigB" "0xb0b" bobsSession bob [VIEWER]);
      [reflexivity|reflexivity|vm_compute; reflexivity|vm_compute; reflexivity
      |reflexivity|vm_compute; reflexivity|reflexivity|discriminate].
Defined.

(** Carol has no part in the shared workspace; Alice, its owner, is signed
    in; an entry for Alice's session user in Carol's workspace moves her. *)
Lemma permission_entry_opens_the_switch_witness :
  (targetOf "w3" db1 = Some w3
   ∧ User.id (Workspace.owner w3) ≠ "u1"
   ∧ qualifies "u1" w3 = false
   ∧ sessionOf "u1" db1 = Some session1)
  ∧ ∃ w',
      targetOf "w3" (WorkspaceController.updatePermissions "w3" "u1" custom db1).2
        = Some w'
      ∧ Workspace.members w' = Workspace.members w3
      ∧ qualifies "u1" w' = true
      ∧ sessionOf "u1"
          (AuthController.updateWorkspace "w3" "u1"
             (WorkspaceController.updatePermissions "w3" "u1" custom db1).2).2
        = Some (UserToken.with_workspace w' session1).
Proof.
  assert (H1 : targetOf "w3" db1 = Some w3) by (vm_compute; reflexivity).
  assert (H2 : User.id (Workspace.owner w3) ≠ "u1") by discriminate.
  assert (H3 : sessionOf "u1" db1 = Some session1) by (vm_compute; reflexivity).
  split; [split; [exact H1|split; [exact H2|split; [vm_compute; reflexivity|exact H3]]]|].
  destruct (permission_entry_opens_the_switch "w3" "u1" custom db1 w3 session1 H1 H2 H3)
    as (w' & E1 & E2 & _ & E3 & _ & E4).
  exists w'. split; [exact E1|]. split; [exact E2|]. split; [exact E3|exact E4].
Defined.

Lemma signIn_refused_signature_writes_nothing_witness :
  (AuthController.typedBody (signInBody "forged" None) = Some (typedSignIn "forged" None)
   ∧ is_Some (verifySignature envStrict "forged"
                (AuthController.signedMessage (signInBody "forged" None)) "0xa11ce"))
  ∧ (AuthController.signIn envStrict (signInBody "forged" None) db1).2 = db1
  ∧ sessionOf "u1" (AuthController.signIn envStrict (signInBody "forged" None) db1).2
    = Some session1.
Proof.
  assert (H1 : AuthController.typedBody (signInBody "forged" None)
               = Some (typedSignIn "forged" None)) by (vm_compute; reflexivity).
  assert (H2 : verifySignature envStrict
                 (AuthController.signature (typedSignIn "forged" None))
                 (AuthController.signedMessage (signInBody "forged" None))
                 (AuthController.address (typedSignIn "forged" None))
               = Some (unauthorized UnauthorizedErrorTitles.INVALID_SIGNATURE
                         "Invalid signature")) by (vm_compute; reflexivity).
  split; [split; [exact H1|by eexists]|].
  destruct (signIn_refused_signature_writes_nothing envStrict _ _ db1 _ H1 H2)
    as (E1 & E2 & _).
  split.
  - rewrite E1. reflexivity.
  - transitivity (sessionOf "u1" db1); [exact E2|vm_compute; reflexivity].
Defined.

(** Alice signs in naming Carol's workspace, in which she has no part. *)
Lemma signIn_binds_the_named_workspace_witness :
  (AuthController.typedBody (signInBody "sig3" (Some "w3"))
   = Some (typedSignIn "sig3" (Some "w3"))
   ∧ qualifies "u1" w3 = false
   ∧ User.id (Workspace.owner w3) ≠ "u1")
  ∧ ∃ t db',
      AuthController.signIn env (signInBody "sig3" (Some "w3")) db0
        = (Return (successful t Responses.Ok), db')
      ∧ User.id (UserToken.user t) = "u1"
      ∧ UserToken.token t = "sig3"
      ∧ targetOf "w3" db0 = Some (UserToken.workspace t).
Proof.
  assert (H1 : AuthController.typedBody (signInBody "sig3" (Some "w3"))
               = Some (typedSignIn "sig3" (Some "w3"))) by (vm_compute; reflexivity).
  set (t := issued env (signInBody "sig3" (Some "w3")) (typedSignIn "sig3" (Some "w3"))
              0 alice w3).
  set (db' := (AuthController.signIn env (signInBody "sig3" (Some "w3")) db0).2).
  assert (H2 : AuthController.signIn env (signInBody "sig3" (Some "w3")) db0
               = (Return (successful t Responses.Ok), db'))
    by (vm_compute; reflexivity).
  split; [split; [exact H1|split; [vm_compute; reflexivity|discriminate]]|].
  destruct (signIn_binds_the_named_workspace env _ _ db0 t _ db' H1 H2)
    as (_ & E1 & E2 & _ & E3).
  exists t, db'. split; [exact H2|]. split; [exact E1|]. split; [exact E2|exact E3].
Defined.

Lemma signIn_touches_one_users_sessions_witness :
  users (AuthController.signIn env body2 db1).2 = users db1
  ∧ workspaces (AuthController.signIn env body2 db1).2 = workspaces db1
  ∧ othersOf "u1" (tokens (AuthController.signIn env body2 db1).2)
    = othersOf "u1" (tokens db1)
  ∧ (AuthController.signIn env [("address", JStr "0xa11ce")] db1).2 = db1.
Proof.
  destruct (signIn_touches_one_users_sessions env body2 db1) as (E1 & E2 & E3 & _).
  destruct (signIn_touches_one_users_sessions env [("address", JStr "0xa11ce")] db1)
    as (_ & _ & _ & E4).
  split; [exact E1|]. split; [exact E2|]. split.
  - apply (E3 (typedSignIn "sig2" (Some "w2"))). vm_compute. reflexivity.
  - apply E4. vm_compute. reflexivity.
Defined.

Lemma authMiddleware_needs_both_headers_witness :
  authMiddleware env 5000
    {| authorization := Some "sig1"; signerAddress := Some "";
       user := None; userToken := None; workspace := None |} db1
  = ((missingCredentials,
      {| authorization := Some "sig1"; signerAddress := Some "";
         user := None; userToken := None; workspace := None |}), db1).
Proof.
  apply authMiddleware_needs_both_headers.
  right. right. right. reflexivity.
Defined.

Lemma hasReservedCoins_is_the_reserved_total_witness :
  parseUnits "0" = Return 0
  ∧ PredicateController.hasReservedCoins parseUnits (Return transactions)
    = successful 123 Responses.Ok
  ∧ PredicateController.hasReservedCoins parseUnits
      (Return (tx PredicateController.PENDING_SENDER ["1"; "x"] :: transactions))
    = successful 0 Responses.Ok
  ∧ PredicateController.hasReservedCoins parseUnits (Throw TypeError)
    = successful 0 Responses.Ok.
Proof.
  assert (H0 : parseUnits "0" = Return 0) by reflexivity.
  destruct (hasReservedCoins_is_the_reserved_total parseUnits H0) as (E1 & _ & E2).
  split; [exact H0|]. split; [|split].
  - rewrite E1. vm_compute. reflexivity.
  - rewrite E1. vm_compute. reflexivity.
  - apply E2.
Defined.

Lemma hasReservedCoins_ignores_the_order_witness :
  Permutation transactions (rev transactions)
  ∧ PredicateController.hasReservedCoins parseUnits (Return transactions)
    = PredicateController.hasReservedCoins parseUnits (Return (rev transactions)).
Proof.
  assert (H0 : parseUnits "0" = Return 0) by reflexivity.
  assert (H1 : Permutation transactions (rev transactions)) by apply Permutation_rev.
  split; [exact H1|].
  exact (hasReservedCoins_ignores_the_order parseUnits _ _ H0 H1).
Defined.

Lemma list_applies_the_last_filter_only_witness :
  PredicateService.listWheres
    {| PredicateService.address := Some "0xfeed";
       PredicateService.provider := Some "https://provider.example/graphql";
       PredicateService.owner := None;
       PredicateService.q := Some "vault";
       PredicateService.workspace := Some ["w2"];
       PredicateService.signer := Some "0xa11ce" |}
  = [(PredicateService.simple, PredicateService.SignerAmongAddresses "0xa11ce");
     (PredicateService.and, PredicateService.NameOrDescriptionLike "%vault%")].
Proof.
  destruct (list_applies_the_last_filter_only
              {| PredicateService.address := Some "0xfeed";
                 PredicateService.provider := Some "https://provider.example/graphql";
                 PredicateService.owner := None;
                 PredicateService.q := Some "vault";
                 PredicateService.workspace := Some ["w2"];
                 PredicateService.signer := Some "0xa11ce" |}) as (E1 & _ & E2 & _).
  rewrite E1, (E2 "0xa11ce" eq_refl). reflexivity.
Defined.

(** Alice lists predicates from the shared workspace, her single workspace
    being another one. *)
Lemma predicate_list_query_witness :
  Workspace.id w1 ≠ Workspace.id w2
  ∧ andThen (predicateListFilter query alice w2 (Some w1) ["w1"; "w2"])
            (fun f => Return (PredicateService.listWheres f))
    = Return [(PredicateService.simple,
               PredicateService.ProviderIs "https://provider.example/graphql");
              (PredicateService.and, PredicateService.NameOrDescriptionLike "%vault%")]
  ∧ andThen (predicateListFilter query alice w1 (Some w1) ["w1"; "w2"])
            (fun f => Return (PredicateService.listWheres f))
    = Return [(PredicateService.simple, PredicateService.SignerAmongAddresses "0xa11ce");
              (PredicateService.and, PredicateService.NameOrDescriptionLike "%vault%")].
Proof.
  assert (H1 : Workspace.id w1 ≠ Workspace.id w2) by discriminate.
  destruct (predicate_list_query query alice w2 w1 ["w1"; "w2"]) as (_ & _ & E1).
  destruct (predicate_list_query query alice w1 w1 ["w1"; "w2"]) as (_ & E2 & _).
  split; [exact H1|]. split.
  - rewrite (E1 H1). reflexivity.
  - rewrite E2; [reflexivity|reflexivity|discriminate].
Defined.
